(** * Expiring message links: a shallow embedding of [main.py] and its properties

    The service stores one record per message in a single SQLite table,
    optionally writes an uploaded image next to it, mails a link to the
    recipient and serves the message until its expiry time.  The handlers are
    embedded as functions in a small state-and-exception monad over a [World]
    holding the table, the upload directory and the mails handed to the
    provider.  What a handler reads from its surroundings during one request
    (the random token, the clock, the provider's verdict) is an [Env].

    Python [str] values are modelled as Rocq strings; every character the
    handlers search for is ASCII, so working on the UTF-8 bytes agrees with
    working on code points.  Timestamps ([time.time()], the REAL columns) are
    doubles, taken as the rationals they denote, so that comparing two of
    them is comparing rationals.  The one arithmetic step on them, the
    double-precision sum of the clock and the ttl, is the platform's
    [float_add]: what it returns is what is stored, and nothing is assumed
    about how it rounds. *)

From Stdlib Require Import ZArith QArith Lqa DecimalString Ascii String.
From stdpp Require Import gmap strings list fin_maps.
Local Close Scope Q_scope.

(** ** Python values and the library functions the handlers call *)

Module Py.

(** Truth value of an [Optional[str]]: [None] and the empty string are false. *)
Definition truthy_str (o : option string) : bool :=
  match o with
  | Some s => negb (String.eqb s "")
  | None => false
  end.

(** Truth value of an optional object whose class defines neither
    [__bool__] nor [__len__] (an [UploadFile]): only [None] is false. *)
Definition truthy_obj {A : Type} (o : option A) : bool :=
  match o with
  | Some _ => true
  | None => false
  end.

(** [a or b] where [a] is an [Optional[str]] and [b] a [str]. *)
Definition opt_or (a : option string) (b : string) : string :=
  match a with
  | Some s => if String.eqb s "" then b else s
  | None => b
  end.

(** [a or b] on two [str]. *)
Definition str_or (a b : string) : string :=
  if String.eqb a "" then b else a.

(** How an f-string prints an [Optional[str]]. *)
Definition format_opt (o : option string) : string :=
  match o with
  | Some s => s
  | None => "None"
  end.

(** How an f-string prints an [int]. *)
Definition format_int (z : Z) : string :=
  NilZero.string_of_int (Z.to_int z).

(** [s.replace(old, new)] for a one-character [old]. *)
Fixpoint replace1 (old : ascii) (new : string) (s : string) : string :=
  match s with
  | EmptyString => EmptyString
  | String c s' =>
      (if Ascii.eqb c old then new else String c EmptyString)
        +:+ replace1 old new s'
  end.

(** [a > b] on two timestamps. *)
Definition time_gt (a b : Q) : bool := negb (Qle_bool a b).

(** [os.path.join(a, b)] on a POSIX system. *)
Definition path_join (a b : string) : string :=
  if String.prefix "/" b then b
  else if String.eqb a "" then b
  else if String.eqb (String.substring (String.length a - 1) 1 a) "/" then a +:+ b
  else a +:+ "/" +:+ b.

End Py.

(** ** [html.escape] and the page of the view endpoint *)

Module Html.

Definition nl : string := String "010"%char EmptyString.
Definition dq : string := String "034"%char EmptyString.

(** [html.escape(s)] with its default [quote=True]: five replacements,
    the ampersand first. *)
Definition escape (s : string) : string :=
  let s := Py.replace1 "&"%char "&amp;" s in
  let s := Py.replace1 "<"%char "&lt;" s in
  let s := Py.replace1 ">"%char "&gt;" s in
  let s := Py.replace1 "034"%char "&quot;" s in
  let s := Py.replace1 "'"%char "&#x27;" s in
  s.

(** [safe_text = escape(row["text"]).replace("\n", "<br/>")] *)
Definition safe_text (text : string) : string :=
  Py.replace1 "010"%char "<br/>" (escape text).

(** The template of [view] up to the value of the [src] attribute. *)
Definition page_head : string :=
  String.concat nl
    [ "";
      "    <!doctype html>";
      "    <html>";
      "      <head>";
      "        <meta charset=" +:+ dq +:+ "utf-8" +:+ dq +:+ "/>";
      "        <meta name=" +:+ dq +:+ "viewport" +:+ dq +:+ " content=" +:+ dq +:+ "width=device-width,initial-scale=1" +:+ dq +:+ "/>";
      "        <title>Your message</title>";
      "        <style>";
      "          body {";
      "            font-family: ui-sans-serif, system-ui, -apple-system, Segoe UI, Roboto, Arial;";
      "            margin: 0;";
      "            background: #f6f7fb;";
      "            color: #111827;";
      "          }";
      "          .wrap {";
      "            max-width: 860px;";
      "            margin: 0 auto;";
      "            padding: 32px 16px;";
      "          }";
      "          .card {";
      "            background: white;";
      "            border-radius: 18px;";
      "            box-shadow: 0 10px 30px rgba(0,0,0,.08);";
      "            overflow: hidden;";
      "          }";
      "          .hero {";
      "            width: 100%;";
      "            display: block;";
      "            object-fit: cover;";
      "            max-height: 420px;";
      "            background: #e5e7eb;";
      "          }";
      "          .content {";
      "            padding: 22px 22px 26px;";
      "          }";
      "          h1 {";
      "            font-size: 22px;";
      "            margin: 0 0 10px;";
      "            letter-spacing: -0.01em;";
      "          }";
      "          .p {";
      "            font-size: 16px;";
      "            line-height: 1.6;";
      "            margin: 0;";
      "            color: #374151;";
      "          }";
      "          .meta {";
      "            margin-top: 14px;";
      "            font-size: 12px;";
      "            color: #9ca3af;";
      "          }";
      "        </style>";
      "      </head>";
      "      <body>";
      "        <div class=" +:+ dq +:+ "wrap" +:+ dq +:+ ">";
      "          <div class=" +:+ dq +:+ "card" +:+ dq +:+ ">";
      "            <img class=" +:+ dq +:+ "hero" +:+ dq +:+ " src=" +:+ dq ].

(** The template between the image source and the message text. *)
Definition page_mid : string :=
  String.concat nl
    [ dq +:+ " alt=" +:+ dq +:+ "Image" +:+ dq +:+ "/>";
      "            <div class=" +:+ dq +:+ "content" +:+ dq +:+ ">";
      "              <h1>To My Beloved...</h1>";
      "              <p class=" +:+ dq +:+ "p" +:+ dq +:+ ">" ].

(** The template after the message text. *)
Definition page_tail : string :=
  String.concat nl
    [ "</p>";
      "              <div class=" +:+ dq +:+ "meta" +:+ dq +:+ ">This link expires automatically.</div>";
      "            </div>";
      "          </div>";
      "        </div>";
      "      </body>";
      "    </html>";
      "    " ].

(** The f-string of [view] with its two holes filled. *)
Definition page (img_src safe : string) : string :=
  page_head +:+ img_src +:+ page_mid +:+ safe +:+ page_tail.

End Html.

(** ** The [messages] table *)

Module Db.

(** One row of [messages]; the two image columns are nullable. *)
Record Row : Type := mkRow {
  token : string;
  recipient : string;
  subject : string;
  text : string;
  image_path : option string;
  image_url : option string;
  expires_at : Q;
  created_at : Q
}.

(** [SELECT * FROM messages WHERE token = ?] followed by [fetchone()]. *)
Definition select_one (tok : string) (t : list Row) : option Row :=
  List.find (fun r => String.eqb (token r) tok) t.

(** [DELETE FROM messages WHERE token = ?] *)
Definition delete (tok : string) (t : list Row) : list Row :=
  filter (fun r => token r ≠ tok) t.

(** [INSERT INTO messages ... VALUES ...]: [token] is the PRIMARY KEY, so
    a row whose token is already present is refused ([None]). *)
Definition insert (r : Row) (t : list Row) : option (list Row) :=
  match select_one (token r) t with
  | Some _ => None
  | None => Some (t ++ [r])
  end.

(** The primary key: no token occurs in two rows. *)
Definition tokens_unique (t : list Row) : Prop := NoDup (token <$> t).

End Db.

(** ** The world of the handlers and their monad *)

(** The multipart file part of a request. *)
Record UploadFile : Type := mkUpload {
  filename : option string;
  content : string
}.

(** The message handed to the mail provider. *)
Record Email : Type := mkEmail {
  senderAddress : string;
  to_address : string;
  mail_subject : string;
  plainText : string
}.

(** Persistent state: the table, the files on disk, the accepted mails. *)
Record World : Type := mkWorld {
  db : list Db.Row;
  files : gmap string string;
  outbox : list Email
}.

(** The module-level configuration read from the process environment, and
    two functions of the platform: [os.path.splitext(name)[1].lower()], and
    [now + int(ttl_seconds)] on a double [now], which converts the integer
    to a double, [None] standing for the [OverflowError] of an integer too
    large for that, and returns the double nearest to the sum. *)
Record Config : Type := mkConfig {
  UPLOAD_DIR : string;
  BASE_URL : option string;
  ACS_EMAIL_CONNECTION_STRING : option string;
  FROM_EMAIL : option string;
  splitext_lower : string -> string;
  float_add : Q -> Z -> option Q
}.

(** What becomes of [with open(path, "wb") as f: f.write(content)]: the
    file is written; or [open] raises (a name too long, no permission, no
    such directory) and nothing changes; or [open] has created or emptied the
    file and the write raises (no space left), leaving [kept] in it. *)
Inductive DiskOutcome : Type :=
| DiskWrites
| DiskRefuses
| DiskBreaks (kept : string).

(** What one request reads from its surroundings. *)
Record Env : Type := mkEnv {
  rand_token : string;   (* secrets.token_urlsafe(24) *)
  clock : Q;             (* time.time() *)
  acs_accepts : bool;    (* whether the provider calls complete *)
  disk : DiskOutcome     (* what becomes of the write of an upload *)
}.

Inductive Exception : Type :=
| HTTPException (status_code : Z) (detail : string)
| RuntimeError (msg : string)
| IntegrityError
| ProviderError
| OverflowError
| OSError.

Inductive Response : Type :=
| JSONResponse (status link : string) (expires_at : Q)
| HTMLResponse (body : string) (status_code : Z)
| FileResponse (path : string).

Inductive result (A : Type) : Type :=
| Returned (a : A)
| Raised (e : Exception).
Arguments Returned {A} a.
Arguments Raised {A} e.

(** A computation changes the world and returns or raises; what it changed
    before raising stays changed. *)
Definition M (A : Type) : Type := World -> result A * World.

Definition ret {A : Type} (a : A) : M A := fun w => (Returned a, w).

Definition raise {A : Type} (e : Exception) : M A := fun w => (Raised e, w).

Definition bind {A B : Type} (m : M A) (k : A -> M B) : M B :=
  fun w =>
    match m w with
    | (Returned a, w') => k a w'
    | (Raised e, w') => (Raised e, w')
    end.

Declare Scope handler_scope.
Delimit Scope handler_scope with handler.
Notation "x <- m ;; k" := (bind m (fun x => k))
  (at level 100, m at next level, right associativity) : handler_scope.
Notation "m ;; k" := (bind m (fun _ => k))
  (at level 100, right associativity) : handler_scope.
Open Scope handler_scope.

(** The status line the client receives: an [HTTPException] carries its own
    status, any other exception is answered with 500. *)
Definition http_status (r : result Response) : Z :=
  match r with
  | Returned (JSONResponse _ _ _) => 200
  | Returned (HTMLResponse _ code) => code
  | Returned (FileResponse _) => 200
  | Raised (HTTPException code _) => code
  | Raised _ => 500
  end.

(** ** Storage and mail primitives *)

Definition fetch_message (token : string) : M (option Db.Row) :=
  fun w => (Returned (Db.select_one token (db w)), w).

Definition delete_message (token : string) : M unit :=
  fun w => (Returned tt,
            {| db := Db.delete token (db w); files := files w; outbox := outbox w |}).

(** The [INSERT] of [send_link] with its [commit]. *)
Definition insert_message (r : Db.Row) : M unit :=
  fun w =>
    match Db.insert r (db w) with
    | Some t => (Returned tt, {| db := t; files := files w; outbox := outbox w |})
    | None => (Raised IntegrityError, w)
    end.

(** [with open(path, "wb") as f: f.write(content)] *)
Definition write_file (env : Env) (path data : string) : M unit :=
  fun w =>
    match disk env with
    | DiskWrites =>
        (Returned tt,
         {| db := db w; files := <[path := data]> (files w); outbox := outbox w |})
    | DiskRefuses => (Raised OSError, w)
    | DiskBreaks kept =>
        (Raised OSError,
         {| db := db w; files := <[path := kept]> (files w); outbox := outbox w |})
    end.

(** [os.path.exists(path)] *)
Definition path_exists (path : string) : M bool :=
  fun w => (Returned (bool_decide (is_Some (files w !! path))), w).

Definition send_email_acs (cfg : Config) (env : Env)
    (to_email subject body_text : string) : M unit :=
  if negb (Py.truthy_str (ACS_EMAIL_CONNECTION_STRING cfg))
     || negb (Py.truthy_str (FROM_EMAIL cfg))
  then raise (RuntimeError "Missing ACS_EMAIL_CONNECTION_STRING or FROM_EMAIL env vars")
  else
    let message :=
      {| senderAddress := Py.format_opt (FROM_EMAIL cfg);
         to_address := to_email;
         mail_subject := subject;
         plainText := body_text |} in
    if acs_accepts env
    then fun w => (Returned tt,
                   {| db := db w; files := files w; outbox := outbox w ++ [message] |})
    else raise ProviderError.

(** ** The three endpoints *)

(** [POST /send] *)
Definition send_link (cfg : Config) (env : Env)
    (to text : string) (ttl_seconds : Z) (subject : string)
    (image : option UploadFile) (image_url : option string) : M Response :=
  if negb (Py.truthy_obj image) && negb (Py.truthy_str image_url)
  then raise (HTTPException 400 "Provide image upload or image_url")
  else
    let token := rand_token env in
    let now := clock env in
    expires_at <-
      match float_add cfg now ttl_seconds with
      | Some sum => ret sum
      | None => raise OverflowError
      end ;;
    image_path <-
      match image with
      | Some img =>
          let ext := Py.str_or (splitext_lower cfg (Py.opt_or (filename img) "")) ".png" in
          let image_path := Py.path_join (UPLOAD_DIR cfg) (token +:+ ext) in
          write_file env image_path (content img) ;;
          ret (Some image_path)
      | None => ret None
      end ;;
    insert_message
      (Db.mkRow token to subject text image_path image_url expires_at now) ;;
    let link := Py.format_opt (BASE_URL cfg) +:+ "/view/" +:+ token in
    let email_body :=
      "Open your link (expires in " +:+ Py.format_int ttl_seconds +:+ " seconds):"
        +:+ Html.nl +:+ link in
    send_email_acs cfg env to subject email_body ;;
    ret (JSONResponse "sent" link expires_at).

(** [GET /image/{token}] *)
Definition get_image (env : Env) (token : string) : M Response :=
  row <- fetch_message token ;;
  match row with
  | None => raise (HTTPException 404 "Not found")
  | Some row =>
      if Py.time_gt (clock env) (Db.expires_at row)
      then
        delete_message token ;;
        raise (HTTPException 410 "Expired")
      else
        let image_path := Db.image_path row in
        match image_path with
        | Some p =>
            if String.eqb p "" then raise (HTTPException 404 "No stored image")
            else
              there <- path_exists p ;;
              if negb there then raise (HTTPException 404 "No stored image")
              else ret (FileResponse p)
        | None => raise (HTTPException 404 "No stored image")
        end
  end.

(** [GET /view/{token}] *)
Definition view (env : Env) (token : string) : M Response :=
  row <- fetch_message token ;;
  match row with
  | None => raise (HTTPException 404 "Invalid link")
  | Some row =>
      if Py.time_gt (clock env) (Db.expires_at row)
      then
        delete_message token ;;
        ret (HTMLResponse "<h2>Link expired</h2>" 410)
      else
        let safe_text := Html.safe_text (Db.text row) in
        let img_src :=
          if Py.truthy_str (Db.image_url row)
          then Py.format_opt (Db.image_url row)
          else "/image/" +:+ token in
        ret (HTMLResponse (Html.page img_src safe_text) 200)
  end.

(** ** Requests and runs *)

Inductive Request : Type :=
| PostSend (to text : string) (ttl_seconds : Z) (subject : string)
    (image : option UploadFile) (image_url : option string)
| GetImage (token : string)
| GetView (token : string).

Definition handle (cfg : Config) (env : Env) (req : Request) : M Response :=
  match req with
  | PostSend to text ttl subject image image_url =>
      send_link cfg env to text ttl subject image image_url
  | GetImage token => get_image env token
  | GetView token => view env token
  end.

(** The server answers the requests of a run one after the other. *)
Fixpoint serve (cfg : Config) (run : list (Env * Request)) (w : World)
    : list (result Response) * World :=
  match run with
  | [] => ([], w)
  | (env, req) :: run' =>
      let (r, w') := handle cfg env req w in
      let (rs, w'') := serve cfg run' w' in
      (r :: rs, w'')
  end.

(** The table [init_db] creates, an empty upload directory, no mail yet. *)
Definition init_world : World := {| db := []; files := ∅; outbox := [] |}.

(** ** Vocabulary of the statements *)

(** Where [send_link] writes an uploaded image. *)
Definition upload_path (cfg : Config) (token : string) (img : UploadFile) : string :=
  Py.path_join (UPLOAD_DIR cfg)
    (token +:+ Py.str_or (splitext_lower cfg (Py.opt_or (filename img) "")) ".png").

(** The row a send request inserts when its sum came out as [expiry]. *)
Definition sent_row (cfg : Config) (env : Env) (to text : string) (expiry : Q)
    (subject : string) (image : option UploadFile) (image_url : option string) : Db.Row :=
  {| Db.token := rand_token env;
     Db.recipient := to;
     Db.subject := subject;
     Db.text := text;
     Db.image_path := upload_path cfg (rand_token env) <$> image;
     Db.image_url := image_url;
     Db.expires_at := expiry;
     Db.created_at := clock env |}.

(** The upload directory once the image of a send request, if any, is written. *)
Definition files_with_upload (cfg : Config) (token : string)
    (image : option UploadFile) (fs : gmap string string) : gmap string string :=
  match image with
  | Some img => <[upload_path cfg token img := content img]> fs
  | None => fs
  end.

(** The world once a send request has written its file and its row. *)
Definition stored (cfg : Config) (env : Env) (to text : string) (expiry : Q)
    (subject : string) (image : option UploadFile) (image_url : option string)
    (w : World) : World :=
  {| db := db w ++ [sent_row cfg env to text expiry subject image image_url];
     files := files_with_upload cfg (rand_token env) image (files w);
     outbox := outbox w |}.

(** The world once the expired row of [token] is deleted. *)
Definition purged (token : string) (w : World) : World :=
  {| db := Db.delete token (db w); files := files w; outbox := outbox w |}.

(** The image source [view] writes into the page for a row. *)
Definition img_src_of (row : Db.Row) (token : string) : string :=
  match Db.image_url row with
  | Some url => if String.eqb url "" then "/image/" +:+ token else url
  | None => "/image/" +:+ token
  end.

(** The image tag of the page, up to and after the value of its source. *)
Definition img_open : string :=
  "<img class=" +:+ Html.dq +:+ "hero" +:+ Html.dq +:+ " src=" +:+ Html.dq.

Definition img_close : string :=
  Html.dq +:+ " alt=" +:+ Html.dq +:+ "Image" +:+ Html.dq +:+ "/>".

(** The paragraph that holds the message. *)
Definition p_open : string := "<p class=" +:+ Html.dq +:+ "p" +:+ Html.dq +:+ ">".

Definition p_close : string := "</p>".

(** The template cut at the image tag and at the paragraph. *)
Definition before_img : string :=
  String.substring 0 (String.length Html.page_head - String.length img_open)
    Html.page_head.

Definition between : string :=
  String.substring (String.length img_close)
    (String.length Html.page_mid - String.length img_close - String.length p_open)
    Html.page_mid.

Definition after_p : string :=
  String.substring (String.length p_close)
    (String.length Html.page_tail - String.length p_close) Html.page_tail.

(** What a browser makes of the content of an element: characters and
    line breaks. *)
Inductive Node : Type :=
| Chr (c : ascii)
| Br.

(** The characters that start or delimit markup. *)
Definition is_markup (c : ascii) : bool :=
  Ascii.eqb c "&" || Ascii.eqb c "<" || Ascii.eqb c ">"
  || Ascii.eqb c "034" || Ascii.eqb c "'".

(** A reader of element content, character by character: in text, inside a
    character reference, inside a tag. *)
Inductive Lexer : Type :=
| InText
| InReference (name : string)
| InTag (name : string).

(** The five character references [html.escape] writes. *)
Definition decode_reference (name : string) : option ascii :=
  if String.eqb name "amp" then Some "&"%char
  else if String.eqb name "lt" then Some "<"%char
  else if String.eqb name "gt" then Some ">"%char
  else if String.eqb name "quot" then Some "034"%char
  else if String.eqb name "#x27" then Some "'"%char
  else None.

(** [read_from st s]: the characters and line breaks the fragment [s]
    stands for, or [None] when it holds anything but plain characters, the
    five references and [<br/>] elements: another tag, a bare markup
    character, an unknown or unfinished reference. *)
Fixpoint read_from (st : Lexer) (s : string) : option (list Node) :=
  match s with
  | EmptyString =>
      match st with
      | InText => Some []
      | _ => None
      end
  | String c s' =>
      match st with
      | InText =>
          if Ascii.eqb c "&" then read_from (InReference "") s'
          else if Ascii.eqb c "<" then read_from (InTag "") s'
          else if is_markup c then None
          else cons (Chr c) <$> read_from InText s'
      | InReference name =>
          if Ascii.eqb c ";" then
            match decode_reference name with
            | Some d => cons (Chr d) <$> read_from InText s'
            | None => None
            end
          else read_from (InReference (name +:+ String c EmptyString)) s'
      | InTag name =>
          if Ascii.eqb c ">" then
            if String.eqb name "br/" then cons Br <$> read_from InText s'
            else None
          else read_from (InTag (name +:+ String c EmptyString)) s'
      end
  end.

Definition read (s : string) : option (list Node) := read_from InText s.

(** The message as it is meant to show: its characters, a line break for
    each newline. *)
Fixpoint shown (text : string) : list Node :=
  match text with
  | EmptyString => []
  | String c text' => (if Ascii.eqb c "010" then Br else Chr c) :: shown text'
  end.

(** What [safe_text] puts in the place of one character. *)
Definition escape_char (c : ascii) : string :=
  if Ascii.eqb c "&" then "&amp;"
  else if Ascii.eqb c "<" then "&lt;"
  else if Ascii.eqb c ">" then "&gt;"
  else if Ascii.eqb c "034" then "&quot;"
  else if Ascii.eqb c "'" then "&#x27;"
  else if Ascii.eqb c "010" then "<br/>"
  else String c EmptyString.

(** The link mailed to the recipient. *)
Definition link_of (cfg : Config) (token : string) : string :=
  Py.format_opt (BASE_URL cfg) +:+ "/view/" +:+ token.

(** The mail of a send request. *)
Definition mail_of (cfg : Config) (token to subject : string) (ttl_seconds : Z) : Email :=
  {| senderAddress := Py.format_opt (FROM_EMAIL cfg);
     to_address := to;
     mail_subject := subject;
     plainText :=
       "Open your link (expires in " +:+ Py.format_int ttl_seconds +:+ " seconds):"
         +:+ Html.nl +:+ link_of cfg token |}.

(** The provider call of this request goes through: both settings are
    present and the provider accepts. *)
Definition mail_goes_out (cfg : Config) (env : Env) : bool :=
  Py.truthy_str (ACS_EMAIL_CONNECTION_STRING cfg)
  && Py.truthy_str (FROM_EMAIL cfg)
  && acs_accepts env.

(** The upload of a send request, if it has one, gets written. *)
Definition upload_lands (env : Env) (image : option UploadFile) : bool :=
  match image, disk env with
  | None, _ => true
  | Some _, DiskWrites => true
  | Some _, _ => false
  end.

(** The form of a send request names an image source. *)
Definition names_image (image : option UploadFile) (image_url : option string) : bool :=
  Py.truthy_obj image || Py.truthy_str image_url.

(** A request addresses [token]: it is a view or an image request for it. *)
Definition access (token : string) (req : Request) : Prop :=
  req = GetView token \/ req = GetImage token.

(** A request that cannot end the record of [token] before [expiry]: a view
    or image request for it comes no later than [expiry], a send request
    draws another token; requests for other tokens are free. *)
Definition keeps_live (token : string) (expiry : Q) (er : Env * Request) : Prop :=
  match snd er with
  | PostSend _ _ _ _ _ _ => rand_token (fst er) <> token
  | GetImage t => t = token -> (clock (fst er) <= expiry)%Q
  | GetView t => t = token -> (clock (fst er) <= expiry)%Q
  end.


(** ** Sample inputs *)

Module Sample.

(** A stand-in for double addition that agrees with it where the samples
    use it: on clocks and ttls that are small integers, whose sum is a
    double itself so that nothing is rounded.  An integer of 1024 bits or
    more has no double. *)
Definition small_sum (now : Q) (ttl : Z) : option Q :=
  if (Z.abs ttl <? 2 ^ 1024)%Z then Some (now + inject_Z ttl)%Q else None.

Definition cfg : Config :=
  {| UPLOAD_DIR := "/home/site/data/uploads";
     BASE_URL := Some "https://links.example";
     ACS_EMAIL_CONNECTION_STRING := Some "endpoint=https://acs.example/;accesskey=k";
     FROM_EMAIL := Some "DoNotReply@links.example";
     splitext_lower := fun _ => ".jpg";
     float_add := small_sum |}.

(** A request at time 100 that draws the token [tok-A]. *)
Definition env : Env :=
  {| rand_token := "tok-A"; clock := 100; acs_accepts := true; disk := DiskWrites |}.

(** The same request when the provider refuses the mail. *)
Definition env_mail_down : Env :=
  {| rand_token := "tok-A"; clock := 100; acs_accepts := false; disk := DiskWrites |}.

(** A later request at time [t]. *)
Definition at_time (t : Q) : Env :=
  {| rand_token := "tok-B"; clock := t; acs_accepts := true; disk := DiskWrites |}.

Definition photo : UploadFile := {| filename := Some "Photo.JPG"; content := "JFIF" |}.

Definition url : string := "https://img.example/1.png".

(** The world after a send at time 100 with a ttl of 60 and a URL only. *)
Definition w_url : World :=
  snd (send_link cfg env "bob@example.org" "hello" 60 "Hi" None (Some url) init_world).

(** The world after a send at time 100 with a ttl of 60 and an upload only. *)
Definition w_photo : World :=
  snd (send_link cfg env "bob@example.org" "hello" 60 "Hi" (Some photo) None init_world).

(** The world after a send at time 100 with a ttl of 60, an upload and a URL. *)
Definition w_both : World :=
  snd (send_link cfg env "bob@example.org" "hello" 60 "Hi" (Some photo) (Some url)
         init_world).

(** A message that tries to bring markup along. *)
Definition script : string :=
  "<script>alert('x')</script>" +:+ Html.nl +:+ "a&b".

Definition w_script : World :=
  snd (send_link cfg env "bob@example.org" script 60 "Hi" None (Some url) init_world).

Definition row_script : Db.Row :=
  Db.mkRow "tok-A" "bob@example.org" "Hi" script None (Some url)
    (100 + inject_Z 60)%Q 100%Q.

(** Requests that follow the send at time 100: two accesses to the record
    before its expiry at 160, an access to an unknown token long after, and
    another send that draws [tok-B]. *)
Definition busy_run : list (Env * Request) :=
  [ (at_time 110, GetView "tok-A");
    (at_time 150, GetImage "tok-A");
    (at_time 900, GetView "tok-Z");
    (at_time 130, PostSend "eve@example.org" "hi" 5 "Yo" (Some photo) None) ].

End Sample.

(** ** The module-level settings *)

Module Settings.

(** [DEFAULT_LOCAL_DATA_DIR]: the [data] directory beside the module, whose
    directory [os.path.dirname(__file__)] is [module_dir]. *)
Definition DEFAULT_LOCAL_DATA_DIR (module_dir : string) : string :=
  Py.path_join module_dir "data".

(** [DATA_DIR]: the variable of that name when it is set and not empty,
    else the App Service directory when [WEBSITE_SITE_NAME] is set and not
    empty, else the local default. *)
Definition DATA_DIR (environ : gmap string string) (module_dir : string) : string :=
  Py.opt_or (environ !! "DATA_DIR")
    (if Py.truthy_str (environ !! "WEBSITE_SITE_NAME") then "/home/site/data"
     else DEFAULT_LOCAL_DATA_DIR module_dir).

Definition UPLOAD_DIR (environ : gmap string string) (module_dir : string) : string :=
  Py.path_join (DATA_DIR environ module_dir) "uploads".

Definition DB_PATH (environ : gmap string string) (module_dir : string) : string :=
  Py.path_join (DATA_DIR environ module_dir) "app.db".

(** The configuration the module ends up with. *)
Definition config (environ : gmap string string) (module_dir : string)
    (splitext_lower : string -> string) (float_add : Q -> Z -> option Q) : Config :=
  mkConfig (UPLOAD_DIR environ module_dir)
    (environ !! "BASE_URL")
    (environ !! "ACS_EMAIL_CONNECTION_STRING")
    (environ !! "FROM_EMAIL")
    splitext_lower
    float_add.

End Settings.

(** ** Further vocabulary *)

(** What [os.path.join] puts before a relative second argument. *)
Definition dir_prefix (a : string) : string :=
  if String.eqb a "" then ""
  else if String.eqb (String.substring (String.length a - 1) 1 a) "/" then a
  else a +:+ "/".

(** The alphabet of [secrets.token_urlsafe]: letters, digits, [-] and [_]. *)
Definition token_char (c : ascii) : bool :=
  let n := nat_of_ascii c in
  (65 <=? n) && (n <=? 90) || (97 <=? n) && (n <=? 122)
  || (48 <=? n) && (n <=? 57) || Ascii.eqb c "-" || Ascii.eqb c "_".

Definition urlsafe (token : string) : Prop :=
  Forall (fun c => token_char c = true) (list_ascii_of_string token).

(** The extension [send_link] appends to the token. *)
Definition ext_of (cfg : Config) (img : UploadFile) : string :=
  Py.str_or (splitext_lower cfg (Py.opt_or (filename img) "")) ".png".

(** [os.path.splitext] returns as extension the empty string or a string
    that starts with a period; lowering keeps that. *)
Definition ext_shaped (cfg : Config) : Prop :=
  forall name, splitext_lower cfg name = ""
               \/ exists rest, splitext_lower cfg name = String "."%char rest.

(** Adding a ttl that is not positive to a double gives a double that is
    not above it (rounding is monotone and the clock is a double). *)
Definition sum_not_above (cfg : Config) : Prop :=
  forall now ttl sum,
    (ttl <= 0)%Z -> float_add cfg now ttl = Some sum -> (sum <= now)%Q.

(** The characters [safe_text] replaces. *)
Definition is_special (c : ascii) : bool := is_markup c || Ascii.eqb c "010".

(** The text a sequence of characters and line breaks stands for. *)
Fixpoint text_of (ns : list Node) : string :=
  match ns with
  | [] => EmptyString
  | Chr c :: ns' => String c (text_of ns')
  | Br :: ns' => String "010"%char (text_of ns')
  end.

(** A request that has nothing to do with [token]: a view or image request
    for another token, or a send that draws another token. *)
Definition elsewhere (token : string) (er : Env * Request) : Prop :=
  match snd er with
  | PostSend _ _ _ _ _ _ => rand_token (fst er) <> token
  | GetImage t => t <> token
  | GetView t => t <> token
  end.

(** Every row names an image source, and the file of every row that has a
    path is on disk. *)
Definition well_stored (w : World) : Prop :=
  forall row, row ∈ db w ->
    (Py.truthy_str (Db.image_path row) || Py.truthy_str (Db.image_url row) = true)
    /\ (forall p, Db.image_path row = Some p -> p <> "" /\ is_Some (files w !! p)).

(** Both mail settings are present and not empty. *)
Definition mail_configured (cfg : Config) : bool :=
  Py.truthy_str (ACS_EMAIL_CONNECTION_STRING cfg) && Py.truthy_str (FROM_EMAIL cfg).

(** More sample inputs. *)
Module Sample2.

(** The process environment of an App Service deployment. *)
Definition environ : gmap string string :=
  {[ "WEBSITE_SITE_NAME" := "links-app";
     "BASE_URL" := "https://links.example";
     "FROM_EMAIL" := "DoNotReply@links.example" ]}.

(** A configuration without the provider's connection string. *)
Definition cfg_no_acs : Config :=
  Settings.config environ "/srv/app" (fun _ => ".jpg") Sample.small_sum.

(** A configuration without a base URL. *)
Definition cfg_no_base : Config :=
  {| UPLOAD_DIR := "/home/site/data/uploads";
     BASE_URL := None;
     ACS_EMAIL_CONNECTION_STRING := Some "endpoint=https://acs.example/;accesskey=k";
     FROM_EMAIL := Some "DoNotReply@links.example";
     splitext_lower := fun _ => ".jpg";
     float_add := Sample.small_sum |}.





(** A second request that draws the token of [Sample.env] again, later. *)
Definition env_again : Env :=
  {| rand_token := "tok-A"; clock := 130; acs_accepts := true; disk := DiskWrites |}.

Definition other_photo : UploadFile :=
  {| filename := Some "cat.jpg"; content := "GIF8" |}.

(** Requests that never touch [tok-A], some long after its expiry at 160. *)
Definition quiet_run : list (Env * Request) :=
  [ (Sample.at_time 5000, GetView "tok-Z");
    (Sample.at_time 6000, GetImage "tok-Y");
    (Sample.at_time 7000,
       PostSend "eve@example.org" "hi" 5 "Yo" (Some Sample.photo) None) ].

End Sample2.

(** * Properties *)

(** ** Timestamps *)

Lemma time_gt_true (a b : Q) : Py.time_gt a b = true <-> (b < a)%Q.
Proof.
  unfold Py.time_gt. rewrite negb_true_iff, <- not_true_iff_false, Qle_bool_iff.
  split; [apply Qnot_le_lt | apply Qlt_not_le].
Qed.

Lemma time_gt_false (a b : Q) : Py.time_gt a b = false <-> (a <= b)%Q.
Proof.
  unfold Py.time_gt. now rewrite negb_false_iff, Qle_bool_iff.
Qed.

(** ** The table *)


Lemma select_one_None (tok : string) (t : list Db.Row) :
  Db.select_one tok t = None <-> tok ∉ Db.token <$> t.
Proof.
  unfold Db.select_one. induction t as [|r t IH]; simpl.
  - split; [intros _; apply not_elem_of_nil | done].
  - rewrite not_elem_of_cons. destruct (String.eqb_spec (Db.token r) tok) as [E|E].
    + split; [done | intros [? _]; congruence].
    + rewrite IH. split; [intros ?; split; [congruence | done] | tauto].
Qed.

Lemma select_one_delete_eq (tok : string) (t : list Db.Row) :
  Db.select_one tok (Db.delete tok t) = None.
Proof.
  apply select_one_None. unfold Db.delete. intros Hin.
  apply list_elem_of_fmap in Hin as (r & Htok & Hr).
  apply list_elem_of_filter in Hr as [Hne _]. congruence.
Qed.

Lemma select_one_delete_ne (tok tok' : string) (t : list Db.Row) :
  tok' <> tok -> Db.select_one tok' (Db.delete tok t) = Db.select_one tok' t.
Proof.
  intros Hne. unfold Db.select_one, Db.delete.
  induction t as [|r t IH]; [done|].
  destruct (decide (Db.token r = tok)) as [Hr|Hr].
  - rewrite filter_cons_False by tauto. simpl. rewrite IH.
    destruct (String.eqb_spec (Db.token r) tok'); [congruence | done].
  - rewrite filter_cons_True by done. simpl. now rewrite IH.
Qed.


Lemma select_one_app_fresh (tok : string) (t : list Db.Row) (r : Db.Row) :
  Db.select_one tok t = None ->
  Db.select_one tok (t ++ [r]) = if String.eqb (Db.token r) tok then Some r else None.
Proof.
  unfold Db.select_one. induction t as [|r' t IH]; simpl; [done|].
  destruct (String.eqb (Db.token r') tok); [done | exact IH].
Qed.

Lemma select_one_app_seen (tok : string) (t : list Db.Row) (r r' : Db.Row) :
  Db.select_one tok t = Some r' -> Db.select_one tok (t ++ [r]) = Some r'.
Proof.
  unfold Db.select_one. induction t as [|r0 t IH]; simpl; [done|].
  destruct (String.eqb (Db.token r0) tok); [done | exact IH].
Qed.

Lemma insert_fresh (r : Db.Row) (t : list Db.Row) :
  Db.select_one (Db.token r) t = None -> Db.insert r t = Some (t ++ [r]).
Proof. unfold Db.insert. now intros ->. Qed.

Lemma insert_taken (r r' : Db.Row) (t : list Db.Row) :
  Db.select_one (Db.token r) t = Some r' -> Db.insert r t = None.
Proof. unfold Db.insert. now intros ->. Qed.

Lemma tokens_unique_delete (tok : string) (t : list Db.Row) :
  Db.tokens_unique t -> Db.tokens_unique (Db.delete tok t).
Proof.
  unfold Db.tokens_unique, Db.delete. induction t as [|r t IH]; [done|].
  rewrite fmap_cons, NoDup_cons. intros [Hnin Hnd].
  rewrite filter_cons. case_decide.
  - rewrite fmap_cons, NoDup_cons. split; [|auto].
    intros Hin. apply Hnin.
    apply list_elem_of_fmap in Hin as (r' & -> & Hr').
    apply list_elem_of_filter in Hr' as [_ Hr'].
    apply list_elem_of_fmap. eauto.
  - auto.
Qed.

Lemma tokens_unique_insert (r : Db.Row) (t t' : list Db.Row) :
  Db.tokens_unique t -> Db.insert r t = Some t' -> Db.tokens_unique t'.
Proof.
  unfold Db.tokens_unique, Db.insert. intros Hnd.
  destruct (Db.select_one (Db.token r) t) eqn:Hsel; [done|].
  intros [= <-]. rewrite fmap_app. apply NoDup_app. split; [done|]. split.
  - intros x Hx Hx'. apply list_elem_of_singleton in Hx' as ->.
    now apply select_one_None in Hsel.
  - apply NoDup_singleton.
Qed.

(** ** The view endpoint, case by case *)

Lemma view_missing (env : Env) (tok : string) (w : World) :
  Db.select_one tok (db w) = None ->
  view env tok w = (Raised (HTTPException 404 "Invalid link"), w).
Proof. intros H. unfold view, bind, fetch_message. now rewrite H. Qed.

Lemma view_expired (env : Env) (tok : string) (w : World) (row : Db.Row) :
  Db.select_one tok (db w) = Some row ->
  (Db.expires_at row < clock env)%Q ->
  view env tok w = (Returned (HTMLResponse "<h2>Link expired</h2>" 410), purged tok w).
Proof.
  intros H Hlt. apply time_gt_true in Hlt.
  unfold view, bind, fetch_message. now rewrite H, Hlt.
Qed.

Lemma view_live (env : Env) (tok : string) (w : World) (row : Db.Row) :
  Db.select_one tok (db w) = Some row ->
  (clock env <= Db.expires_at row)%Q ->
  view env tok w =
    (Returned (HTMLResponse
                 (Html.page (img_src_of row tok) (Html.safe_text (Db.text row))) 200), w).
Proof.
  intros H Hle. apply time_gt_false in Hle.
  unfold view, bind, fetch_message. rewrite H, Hle. unfold ret, img_src_of.
  destruct (Db.image_url row) as [url|]; simpl; [|done].
  now destruct (String.eqb url "").
Qed.

(** ** The image endpoint, case by case *)

Lemma get_image_missing (env : Env) (tok : string) (w : World) :
  Db.select_one tok (db w) = None ->
  get_image env tok w = (Raised (HTTPException 404 "Not found"), w).
Proof. intros H. unfold get_image, bind, fetch_message. now rewrite H. Qed.

Lemma get_image_expired (env : Env) (tok : string) (w : World) (row : Db.Row) :
  Db.select_one tok (db w) = Some row ->
  (Db.expires_at row < clock env)%Q ->
  get_image env tok w = (Raised (HTTPException 410 "Expired"), purged tok w).
Proof.
  intros H Hlt. apply time_gt_true in Hlt.
  unfold get_image, bind, fetch_message. now rewrite H, Hlt.
Qed.

Lemma get_image_served (env : Env) (tok : string) (w : World) (row : Db.Row)
    (p : string) :
  Db.select_one tok (db w) = Some row ->
  (clock env <= Db.expires_at row)%Q ->
  Db.image_path row = Some p -> p <> "" -> is_Some (files w !! p) ->
  get_image env tok w = (Returned (FileResponse p), w).
Proof.
  intros H Hle Hp Hne Hfile. apply time_gt_false in Hle.
  unfold get_image, bind, fetch_message, path_exists. rewrite H, Hle, Hp.
  apply String.eqb_neq in Hne. rewrite Hne.
  now rewrite bool_decide_eq_true_2.
Qed.

(** A row has no stored image in [w]: no path, the empty path, or a path
    under which the disk holds nothing. *)
Lemma get_image_no_file (env : Env) (tok : string) (w : World) (row : Db.Row) :
  Db.select_one tok (db w) = Some row ->
  (clock env <= Db.expires_at row)%Q ->
  (Py.truthy_str (Db.image_path row) = false \/
   exists p, Db.image_path row = Some p /\ files w !! p = None) ->
  get_image env tok w = (Raised (HTTPException 404 "No stored image"), w).
Proof.
  intros H Hle Hno. apply time_gt_false in Hle.
  unfold get_image, bind, fetch_message, path_exists. rewrite H, Hle.
  destruct Hno as [Hno | (p & Hp & Hfile)].
  - destruct (Db.image_path row) as [p|]; [|done]. simpl in Hno.
    apply negb_false_iff in Hno. now rewrite Hno.
  - rewrite Hp. destruct (String.eqb p ""); [done|].
    rewrite bool_decide_eq_false_2; [done|].
    rewrite Hfile. now intros [? ?].
Qed.

(** ** The send endpoint, case by case *)

Lemma send_link_rejected (cfg : Config) (env : Env) (to text : string) (ttl : Z)
    (subject : string) (image : option UploadFile) (image_url : option string)
    (w : World) :
  names_image image image_url = false ->
  send_link cfg env to text ttl subject image image_url w =
    (Raised (HTTPException 400 "Provide image upload or image_url"), w).
Proof.
  unfold names_image. intros H. apply orb_false_iff in H as [Hi Hu].
  unfold send_link. now rewrite Hi, Hu.
Qed.

(** An accepted request whose ttl has no double stops there. *)
Lemma send_link_overflow (cfg : Config) (env : Env) (to text : string) (ttl : Z)
    (subject : string) (image : option UploadFile) (image_url : option string)
    (w : World) :
  names_image image image_url = true ->
  float_add cfg (clock env) ttl = None ->
  send_link cfg env to text ttl subject image image_url w = (Raised OverflowError, w).
Proof.
  unfold names_image. intros Hacc Hsum. unfold send_link.
  replace (negb (Py.truthy_obj image) && negb (Py.truthy_str image_url)) with false
    by (now rewrite <- negb_orb, Hacc).
  unfold bind, raise. now rewrite Hsum.
Qed.

(** An accepted request whose upload is not written stops there: nothing
    has changed, except the file itself when the write broke off. *)
Lemma send_link_disk_refuses (cfg : Config) (env : Env) (to text : string) (ttl : Z)
    (subject : string) (img : UploadFile) (image_url : option string) (w : World)
    (expiry : Q) :
  float_add cfg (clock env) ttl = Some expiry ->
  disk env = DiskRefuses ->
  send_link cfg env to text ttl subject (Some img) image_url w = (Raised OSError, w).
Proof.
  intros Hsum Hdisk. unfold send_link, bind, ret, write_file. simpl.
  now rewrite Hsum, Hdisk.
Qed.

Lemma send_link_disk_breaks (cfg : Config) (env : Env) (to text : string) (ttl : Z)
    (subject : string) (img : UploadFile) (image_url : option string) (w : World)
    (expiry : Q) (kept : string) :
  float_add cfg (clock env) ttl = Some expiry ->
  disk env = DiskBreaks kept ->
  send_link cfg env to text ttl subject (Some img) image_url w =
    (Raised OSError,
     {| db := db w;
        files := <[upload_path cfg (rand_token env) img := kept]> (files w);
        outbox := outbox w |}).
Proof.
  intros Hsum Hdisk. unfold send_link, bind, ret, write_file. simpl.
  now rewrite Hsum, Hdisk.
Qed.

(** Up to the provider call an accepted request with a fresh token, whose
    sum is computed and whose upload is written, writes the file and the
    row. *)
Lemma send_link_stores (cfg : Config) (env : Env) (to text : string) (ttl : Z)
    (subject : string) (image : option UploadFile) (image_url : option string)
    (w : World) (expiry : Q) :
  names_image image image_url = true ->
  float_add cfg (clock env) ttl = Some expiry ->
  upload_lands env image = true ->
  Db.select_one (rand_token env) (db w) = None ->
  send_link cfg env to text ttl subject image image_url w =
    (send_email_acs cfg env to subject (plainText (mail_of cfg (rand_token env) to subject ttl)) ;;
     ret (JSONResponse "sent" (link_of cfg (rand_token env)) expiry))
      (stored cfg env to text expiry subject image image_url w).
Proof.
  unfold names_image. intros Hacc Hsum Hdisk Hfresh.
  unfold send_link.
  replace (negb (Py.truthy_obj image) && negb (Py.truthy_str image_url)) with false
    by (now rewrite <- negb_orb, Hacc).
  unfold bind at 1. rewrite Hsum. unfold ret at 1.
  destruct image as [img|]; unfold bind, write_file, insert_message, ret; simpl.
  - unfold upload_lands in Hdisk. destruct (disk env); try discriminate Hdisk.
    simpl. rewrite insert_fresh by exact Hfresh. reflexivity.
  - rewrite insert_fresh by exact Hfresh. reflexivity.
Qed.

Lemma send_link_collision (cfg : Config) (env : Env) (to text : string) (ttl : Z)
    (subject : string) (image : option UploadFile) (image_url : option string)
    (w : World) (expiry : Q) (r : Db.Row) :
  names_image image image_url = true ->
  float_add cfg (clock env) ttl = Some expiry ->
  upload_lands env image = true ->
  Db.select_one (rand_token env) (db w) = Some r ->
  send_link cfg env to text ttl subject image image_url w =
    (Raised IntegrityError,
     {| db := db w;
        files := files_with_upload cfg (rand_token env) image (files w);
        outbox := outbox w |}).
Proof.
  unfold names_image. intros Hacc Hsum Hdisk Htaken.
  unfold send_link.
  replace (negb (Py.truthy_obj image) && negb (Py.truthy_str image_url)) with false
    by (now rewrite <- negb_orb, Hacc).
  unfold bind at 1. rewrite Hsum. unfold ret at 1.
  destruct image as [img|]; unfold bind, write_file, insert_message, ret; simpl.
  - unfold upload_lands in Hdisk. destruct (disk env); try discriminate Hdisk.
    simpl. erewrite insert_taken by exact Htaken. reflexivity.
  - erewrite insert_taken by exact Htaken. now destruct w.
Qed.

Lemma send_email_acs_out (cfg : Config) (env : Env) (to subject body : string)
    (w : World) :
  mail_goes_out cfg env = true ->
  send_email_acs cfg env to subject body w =
    (Returned tt,
     {| db := db w; files := files w;
        outbox := outbox w ++ [mkEmail (Py.format_opt (FROM_EMAIL cfg)) to subject body] |}).
Proof.
  unfold mail_goes_out. intros H.
  apply andb_true_iff in H as [H Hacs]. apply andb_true_iff in H as [Hc Hf].
  unfold send_email_acs. now rewrite Hc, Hf, Hacs.
Qed.

Lemma send_email_acs_fails (cfg : Config) (env : Env) (to subject body : string)
    (w : World) :
  mail_goes_out cfg env = false ->
  exists e, send_email_acs cfg env to subject body w = (Raised e, w)
            /\ http_status (Raised e) = 500%Z.
Proof.
  unfold mail_goes_out, send_email_acs. intros H.
  destruct (Py.truthy_str (ACS_EMAIL_CONNECTION_STRING cfg)); simpl in *;
    [|eexists; split; reflexivity].
  destruct (Py.truthy_str (FROM_EMAIL cfg)); simpl in *;
    [|eexists; split; reflexivity].
  rewrite H. eexists; split; reflexivity.
Qed.

Lemma send_link_sent (cfg : Config) (env : Env) (to text : string) (ttl : Z)
    (subject : string) (image : option UploadFile) (image_url : option string)
    (w : World) (expiry : Q) :
  names_image image image_url = true ->
  float_add cfg (clock env) ttl = Some expiry ->
  upload_lands env image = true ->
  Db.select_one (rand_token env) (db w) = None ->
  mail_goes_out cfg env = true ->
  send_link cfg env to text ttl subject image image_url w =
    (Returned (JSONResponse "sent" (link_of cfg (rand_token env)) expiry),
     {| db := db (stored cfg env to text expiry subject image image_url w);
        files := files (stored cfg env to text expiry subject image image_url w);
        outbox := outbox w ++ [mail_of cfg (rand_token env) to subject ttl] |}).
Proof.
  intros Hacc Hsum Hdisk Hfresh Hmail.
  rewrite (send_link_stores _ _ _ _ _ _ _ _ _ expiry) by assumption.
  unfold bind. rewrite send_email_acs_out by assumption. reflexivity.
Qed.

Lemma send_link_mail_fails (cfg : Config) (env : Env) (to text : string) (ttl : Z)
    (subject : string) (image : option UploadFile) (image_url : option string)
    (w : World) (expiry : Q) :
  names_image image image_url = true ->
  float_add cfg (clock env) ttl = Some expiry ->
  upload_lands env image = true ->
  Db.select_one (rand_token env) (db w) = None ->
  mail_goes_out cfg env = false ->
  exists e, send_link cfg env to text ttl subject image image_url w =
              (Raised e, stored cfg env to text expiry subject image image_url w)
            /\ http_status (Raised e) = 500%Z.
Proof.
  intros Hacc Hsum Hdisk Hfresh Hmail.
  rewrite (send_link_stores _ _ _ _ _ _ _ _ _ expiry) by assumption.
  destruct (send_email_acs_fails cfg env to subject
              (plainText (mail_of cfg (rand_token env) to subject ttl))
              (stored cfg env to text expiry subject image image_url w) Hmail)
    as (e & He & Hst).
  exists e. unfold bind. now rewrite He.
Qed.

(** The row of a send request is what a lookup of its token finds afterwards. *)
Lemma stored_select (cfg : Config) (env : Env) (to text : string) (expiry : Q)
    (subject : string) (image : option UploadFile) (image_url : option string)
    (w : World) :
  Db.select_one (rand_token env) (db w) = None ->
  Db.select_one (rand_token env)
    (db (stored cfg env to text expiry subject image image_url w)) =
  Some (sent_row cfg env to text expiry subject image image_url).
Proof.
  intros Hfresh. simpl. rewrite select_one_app_fresh by exact Hfresh.
  simpl. now rewrite String.eqb_refl.
Qed.

(** Every way a send request can end, with the world it leaves. *)
Lemma send_link_cases (cfg : Config) (env : Env) (to text : string) (ttl : Z)
    (subject : string) (image : option UploadFile) (image_url : option string)
    (w : World) :
  let r := send_link cfg env to text ttl subject image image_url w in
  (names_image image image_url = false
   /\ r = (Raised (HTTPException 400 "Provide image upload or image_url"), w))
  \/ (names_image image image_url = true
      /\ float_add cfg (clock env) ttl = None
      /\ r = (Raised OverflowError, w))
  \/ (names_image image image_url = true
      /\ exists expiry, float_add cfg (clock env) ttl = Some expiry
      /\ ((exists img, image = Some img /\ r = (Raised OSError, w))
          \/ (exists img kept,
                image = Some img
                /\ r = (Raised OSError,
                        {| db := db w;
                           files := <[upload_path cfg (rand_token env) img := kept]>
                                      (files w);
                           outbox := outbox w |}))
          \/ (upload_lands env image = true
              /\ ((exists old, Db.select_one (rand_token env) (db w) = Some old
                              /\ r = (Raised IntegrityError,
                                      {| db := db w;
                                         files := files_with_upload cfg (rand_token env)
                                                    image (files w);
                                         outbox := outbox w |}))
                  \/ (Db.select_one (rand_token env) (db w) = None
                      /\ mail_goes_out cfg env = false
                      /\ exists e,
                           r = (Raised e,
                                stored cfg env to text expiry subject image image_url w)
                           /\ http_status (Raised e) = 500%Z)
                  \/ (Db.select_one (rand_token env) (db w) = None
                      /\ mail_goes_out cfg env = true
                      /\ r = (Returned (JSONResponse "sent"
                                          (link_of cfg (rand_token env)) expiry),
                              {| db := db w ++ [sent_row cfg env to text expiry subject
                                                  image image_url];
                                 files := files_with_upload cfg (rand_token env) image
                                            (files w);
                                 outbox := outbox w
                                   ++ [mail_of cfg (rand_token env) to subject ttl] |})))))).
Proof.
  intros r. subst r.
  destruct (names_image image image_url) eqn:Hacc;
    [|left; split; [reflexivity | now apply send_link_rejected]].
  right. destruct (float_add cfg (clock env) ttl) as [expiry|] eqn:Hsum;
    [|left; split; [reflexivity|]; split; [reflexivity | now apply send_link_overflow]].
  right. split; [reflexivity|]. exists expiry. split; [reflexivity|].
  destruct (upload_lands env image) eqn:Hdisk.
  - right. right. split; [reflexivity|].
    destruct (Db.select_one (rand_token env) (db w)) as [old|] eqn:Hsel.
    + left. exists old. split; [reflexivity|].
      now apply (send_link_collision _ _ _ _ _ _ _ _ _ expiry old).
    + right. destruct (mail_goes_out cfg env) eqn:Hmail.
      * right. split; [reflexivity|]. split; [reflexivity|].
        now apply send_link_sent.
      * left. split; [reflexivity|]. split; [reflexivity|].
        now apply send_link_mail_fails.
  - unfold upload_lands in Hdisk. destruct image as [img|]; [|discriminate].
    destruct (disk env) as [| |kept] eqn:Hd; [discriminate| |].
    + left. exists img. split; [reflexivity|].
      now apply (send_link_disk_refuses _ _ _ _ _ _ _ _ _ expiry).
    + right. left. exists img, kept. split; [reflexivity|].
      now apply (send_link_disk_breaks _ _ _ _ _ _ _ _ _ expiry).
Qed.

(** ** No image source: the request is refused *)

(** C5. A send request that supplies neither an uploaded image nor an image
    URL (no file part, and no URL or an empty one) is answered with
    [HTTPException 400]; the table, the upload directory and the mails handed
    to the provider are what they were. *)
Theorem send_link_without_image_is_rejected
    (cfg : Config) (env : Env) (to text : string) (ttl : Z) (subject : string)
    (image : option UploadFile) (image_url : option string) (w : World) :
  image = None ->
  image_url = None \/ image_url = Some "" ->
  exists detail w',
    send_link cfg env to text ttl subject image image_url w
      = (Raised (HTTPException 400 detail), w')
    /\ http_status (Raised (HTTPException 400 detail)) = 400%Z
    /\ db w' = db w /\ files w' = files w /\ outbox w' = outbox w.
Proof.
  intros -> Hurl. eexists _, w.
  rewrite send_link_rejected; [auto|].
  now destruct Hurl as [-> | ->].
Qed.

Lemma send_link_without_image_is_rejected_witness :
  (@None UploadFile = None) /\
  (@None string = None \/ @None string = Some "") /\
  exists detail w',
    send_link Sample.cfg Sample.env "bob@example.org" "hello" 60 "Hi" None None
      Sample.w_photo
      = (Raised (HTTPException 400 detail), w')
    /\ http_status (Raised (HTTPException 400 detail)) = 400%Z
    /\ db w' = db Sample.w_photo /\ files w' = files Sample.w_photo
    /\ outbox w' = outbox Sample.w_photo.
Proof.
  split; [reflexivity|]. split; [left; reflexivity|].
  apply send_link_without_image_is_rejected; [reflexivity | left; reflexivity].
Defined.

(** ** Unknown and expired tokens *)

(** C2. For every token, a request to the view endpoint or to the image
    endpoint is answered 404 and changes nothing when the table holds no row
    with that token; when the table holds one whose expiry time lies before
    the clock, the answer is 410 and the world the request leaves behind has
    no row with that token, while every other token is looked up as before
    and the files and mails are untouched. *)
Theorem missing_is_404_expired_is_410_and_deleted
    (env : Env) (tok : string) (w : World) :
  (Db.select_one tok (db w) = None ->
     (http_status (fst (view env tok w)) = 404%Z /\ snd (view env tok w) = w) /\
     (http_status (fst (get_image env tok w)) = 404%Z /\ snd (get_image env tok w) = w))
  /\
  (forall row, Db.select_one tok (db w) = Some row ->
     (Db.expires_at row < clock env)%Q ->
     forall (handler : Env -> string -> M Response),
       handler = view \/ handler = get_image ->
       let (r, w') := handler env tok w in
       http_status r = 410%Z
       /\ Db.select_one tok (db w') = None
       /\ (forall tok', tok' <> tok ->
             Db.select_one tok' (db w') = Db.select_one tok' (db w))
       /\ files w' = files w /\ outbox w' = outbox w).
Proof.
  split.
  - intros Hnone. rewrite view_missing, get_image_missing by exact Hnone. auto.
  - intros row Hrow Hexp handler [-> | ->].
    + rewrite (view_expired env tok w row Hrow Hexp). simpl.
      split; [reflexivity|]. split; [apply select_one_delete_eq|].
      split; [|auto]. intros tok' Hne. now apply select_one_delete_ne.
    + rewrite (get_image_expired env tok w row Hrow Hexp). simpl.
      split; [reflexivity|]. split; [apply select_one_delete_eq|].
      split; [|auto]. intros tok' Hne. now apply select_one_delete_ne.
Qed.

Lemma missing_is_404_expired_is_410_and_deleted_witness :
  Db.select_one "tok-Z" (db Sample.w_url) = None
  /\ http_status (fst (view (Sample.at_time 120) "tok-Z" Sample.w_url)) = 404%Z
  /\ http_status (fst (get_image (Sample.at_time 120) "tok-Z" Sample.w_url)) = 404%Z
  /\ (exists row, Db.select_one "tok-A" (db Sample.w_url) = Some row
        /\ (Db.expires_at row < clock (Sample.at_time 161))%Q)
  /\ (let (r, w') := view (Sample.at_time 161) "tok-A" Sample.w_url in
      http_status r = 410%Z /\ Db.select_one "tok-A" (db w') = None)
  /\ (let (r, w') := get_image (Sample.at_time 161) "tok-A" Sample.w_url in
      http_status r = 410%Z /\ Db.select_one "tok-A" (db w') = None).
Proof.
  pose proof (missing_is_404_expired_is_410_and_deleted
                (Sample.at_time 120) "tok-Z" Sample.w_url) as [Hmiss _].
  pose proof (missing_is_404_expired_is_410_and_deleted
                (Sample.at_time 161) "tok-A" Sample.w_url) as [_ Hexp].
  assert (Hnone : Db.select_one "tok-Z" (db Sample.w_url) = None) by reflexivity.
  destruct (Hmiss Hnone) as [[Hv _] [Hi _]].
  set (row := Db.mkRow "tok-A" "bob@example.org" "Hi" "hello" None (Some Sample.url)
                (100 + inject_Z 60)%Q 100%Q).
  assert (Hrow : Db.select_one "tok-A" (db Sample.w_url) = Some row) by reflexivity.
  assert (Hlt : (Db.expires_at row < clock (Sample.at_time 161))%Q) by reflexivity.
  pose proof (Hexp row Hrow Hlt view (or_introl eq_refl)) as Hview.
  pose proof (Hexp row Hrow Hlt get_image (or_intror eq_refl)) as Himage.
  split; [exact Hnone|]. split; [exact Hv|]. split; [exact Hi|].
  split; [exists row; split; [exact Hrow | exact Hlt]|].
  split.
  - destruct (view (Sample.at_time 161) "tok-A" Sample.w_url) as [r w'].
    destruct Hview as (? & ? & _). auto.
  - destruct (get_image (Sample.at_time 161) "tok-A" Sample.w_url) as [r w'].
    destruct Himage as (? & ? & _). auto.
Defined.

(** ** A live record without a stored image *)

(** C7. When the table holds an unexpired row for the token and that row
    has no stored file (its path is NULL or empty, or the disk holds nothing
    under it), the image endpoint raises [HTTPException 404] and leaves the
    world, the row included, as it was. *)
Theorem get_image_without_file_is_404
    (env : Env) (tok : string) (w : World) (row : Db.Row) :
  Db.select_one tok (db w) = Some row ->
  (clock env <= Db.expires_at row)%Q ->
  (Db.image_path row = None \/ Db.image_path row = Some ""
   \/ exists p, Db.image_path row = Some p /\ files w !! p = None) ->
  get_image env tok w = (Raised (HTTPException 404 "No stored image"), w)
  /\ http_status (fst (get_image env tok w)) = 404%Z
  /\ Db.select_one tok (db (snd (get_image env tok w))) = Some row.
Proof.
  intros Hrow Hlive Hnofile.
  assert (get_image env tok w = (Raised (HTTPException 404 "No stored image"), w)) as ->.
  { apply (get_image_no_file env tok w row Hrow Hlive).
    destruct Hnofile as [-> | [-> | Hgone]]; [left; reflexivity .. | right; exact Hgone]. }
  auto.
Qed.

Lemma get_image_without_file_is_404_witness :
  let row := Db.mkRow "tok-A" "bob@example.org" "Hi" "hello" None (Some Sample.url)
               (100 + inject_Z 60)%Q 100%Q in
  Db.select_one "tok-A" (db Sample.w_url) = Some row
  /\ (clock (Sample.at_time 120) <= Db.expires_at row)%Q
  /\ Db.image_path row = None
  /\ get_image (Sample.at_time 120) "tok-A" Sample.w_url
       = (Raised (HTTPException 404 "No stored image"), Sample.w_url).
Proof.
  intros row.
  assert (Hrow : Db.select_one "tok-A" (db Sample.w_url) = Some row) by reflexivity.
  assert (Hlive : (clock (Sample.at_time 120) <= Db.expires_at row)%Q)
    by (vm_compute; discriminate).
  split; [exact Hrow|]. split; [exact Hlive|]. split; [reflexivity|].
  exact (proj1 (get_image_without_file_is_404 (Sample.at_time 120) "tok-A" Sample.w_url
                  row Hrow Hlive (or_introl eq_refl))).
Defined.

(** ** The page *)

Lemma string_app_cons (x : ascii) (a b : string) :
  String x a +:+ b = String x (a +:+ b).
Proof. reflexivity. Qed.

Lemma string_app_assoc (a b c : string) : (a +:+ b) +:+ c = a +:+ (b +:+ c).
Proof.
  induction a as [|x a IH]; [reflexivity|].
  rewrite !string_app_cons. f_equal. exact IH.
Qed.

Lemma page_head_cut : Html.page_head = before_img +:+ img_open.
Proof. vm_compute. reflexivity. Qed.

Lemma page_mid_cut : Html.page_mid = img_close +:+ between +:+ p_open.
Proof. vm_compute. reflexivity. Qed.

Lemma page_tail_cut : Html.page_tail = p_close +:+ after_p.
Proof. vm_compute. reflexivity. Qed.

(** The page is the template with the source inside the image tag and the
    escaped text inside the paragraph. *)
Lemma page_shape (src safe : string) :
  Html.page src safe =
    before_img +:+ img_open +:+ src +:+ img_close +:+ between
      +:+ p_open +:+ safe +:+ p_close +:+ after_p.
Proof.
  unfold Html.page. rewrite page_head_cut, page_mid_cut, page_tail_cut.
  now rewrite !string_app_assoc.
Qed.

(** C8. For an unexpired row the view endpoint answers 200 with the page
    whose image tag has as source the row's image URL when the row records a
    non-empty one, and [/image/] followed by the token when the URL column is
    NULL or empty. *)
Theorem view_image_source (env : Env) (tok : string) (w : World) (row : Db.Row) :
  Db.select_one tok (db w) = Some row ->
  (clock env <= Db.expires_at row)%Q ->
  exists src,
    view env tok w =
      (Returned
         (HTMLResponse
            (before_img +:+ img_open +:+ src +:+ img_close +:+ between
               +:+ p_open +:+ Html.safe_text (Db.text row) +:+ p_close +:+ after_p)
            200), w)
    /\ (forall url, Db.image_url row = Some url -> url <> "" -> src = url)
    /\ (Db.image_url row = None \/ Db.image_url row = Some "" ->
        src = "/image/" +:+ tok).
Proof.
  intros Hrow Hlive. exists (img_src_of row tok).
  rewrite (view_live env tok w row Hrow Hlive), page_shape.
  split; [reflexivity|]. unfold img_src_of. split.
  - intros url -> Hne. apply String.eqb_neq in Hne. now rewrite Hne.
  - now intros [-> | ->].
Qed.

Lemma view_image_source_witness :
  let row := Db.mkRow "tok-A" "bob@example.org" "Hi" "hello"
               (Some "/home/site/data/uploads/tok-A.jpg") (Some Sample.url)
               (100 + inject_Z 60)%Q 100%Q in
  Db.select_one "tok-A" (db Sample.w_both) = Some row
  /\ (clock (Sample.at_time 120) <= Db.expires_at row)%Q
  /\ exists src,
       view (Sample.at_time 120) "tok-A" Sample.w_both =
         (Returned
            (HTMLResponse
               (before_img +:+ img_open +:+ src +:+ img_close +:+ between
                  +:+ p_open +:+ Html.safe_text "hello" +:+ p_close +:+ after_p)
               200), Sample.w_both)
       /\ src = Sample.url.
Proof.
  intros row.
  assert (Hrow : Db.select_one "tok-A" (db Sample.w_both) = Some row) by reflexivity.
  assert (Hlive : (clock (Sample.at_time 120) <= Db.expires_at row)%Q)
    by (vm_compute; discriminate).
  split; [exact Hrow|]. split; [exact Hlive|].
  destruct (view_image_source (Sample.at_time 120) "tok-A" Sample.w_both row Hrow Hlive)
    as (src & Hview & Hurl & _).
  exists src. split; [exact Hview|].
  apply Hurl; [reflexivity | discriminate].
Defined.

(** ** Escaping *)

Lemma replace1_app (old : ascii) (new a b : string) :
  Py.replace1 old new (a +:+ b) = Py.replace1 old new a +:+ Py.replace1 old new b.
Proof.
  induction a as [|x a IH]; [reflexivity|].
  rewrite string_app_cons. simpl. now rewrite IH, string_app_assoc.
Qed.

Lemma safe_text_app (a b : string) :
  Html.safe_text (a +:+ b) = Html.safe_text a +:+ Html.safe_text b.
Proof. unfold Html.safe_text, Html.escape. now rewrite !replace1_app. Qed.

(** On one character the six replacements come to [escape_char]: a
    replacement never produces a character a later one looks for. *)
Lemma safe_text_char (c : ascii) :
  Html.safe_text (String c EmptyString) = escape_char c.
Proof. destruct c as [[] [] [] [] [] [] [] []]; reflexivity. Qed.

Lemma safe_text_cons (c : ascii) (s : string) :
  Html.safe_text (String c s) = escape_char c +:+ Html.safe_text s.
Proof.
  change (String c s) with (String c EmptyString +:+ s).
  now rewrite safe_text_app, safe_text_char.
Qed.

(** The text character by character. *)
Lemma safe_text_charwise (s : string) :
  Html.safe_text s = String.concat "" (escape_char <$> list_ascii_of_string s).
Proof.
  induction s as [|c s IH]; [reflexivity|].
  rewrite safe_text_cons, IH. simpl.
  destruct (list_ascii_of_string s); [|reflexivity].
  simpl. clear. induction (escape_char c) as [|x e IHe]; [reflexivity|].
  rewrite string_app_cons. now rewrite IHe.
Qed.

(** Reading what stands for one character gives that character back. *)
Lemma read_escape_char (c : ascii) (rest : string) :
  read (escape_char c +:+ rest) =
    cons (if Ascii.eqb c "010" then Br else Chr c) <$> read rest.
Proof. destruct c as [[] [] [] [] [] [] [] []]; reflexivity. Qed.

Lemma read_safe_text (s : string) : read (Html.safe_text s) = Some (shown s).
Proof.
  induction s as [|c s IH]; [reflexivity|].
  rewrite safe_text_cons, read_escape_char, IH. reflexivity.
Qed.

Lemma chars_app (a b : string) :
  list_ascii_of_string (a +:+ b) = list_ascii_of_string a ++ list_ascii_of_string b.
Proof.
  induction a as [|x a IH]; [reflexivity|].
  rewrite string_app_cons. simpl. now rewrite IH.
Qed.

Lemma escape_char_no_quote (c x : ascii) :
  x ∈ list_ascii_of_string (escape_char c) -> x <> "034"%char /\ x <> "'"%char.
Proof.
  unfold escape_char.
  destruct (Ascii.eqb_spec c "&"); [|destruct (Ascii.eqb_spec c "<");
    [|destruct (Ascii.eqb_spec c ">"); [|destruct (Ascii.eqb_spec c "034");
      [|destruct (Ascii.eqb_spec c "'"); [|destruct (Ascii.eqb_spec c "010")]]]]];
    simpl; intros Hx;
    repeat (apply elem_of_cons in Hx as [-> | Hx]; [split; congruence|]);
    now apply elem_of_nil in Hx.
Qed.

Lemma safe_text_no_quote (s : string) (x : ascii) :
  x ∈ list_ascii_of_string (Html.safe_text s) -> x <> "034"%char /\ x <> "'"%char.
Proof.
  induction s as [|c s IH]; [intros H; now apply elem_of_nil in H|].
  rewrite safe_text_cons, chars_app, elem_of_app.
  intros [H | H]; [exact (escape_char_no_quote c x H) | exact (IH H)].
Qed.

(** C3. For an unexpired row the view endpoint answers 200 with the page in
    which the stored text stands, inside the paragraph, as [safe_text] of it
    and nowhere else: each character replaced by its reference when it is
    one of [&], [<], [>] or a quote, by [<br/>] when it is a newline, and
    left alone otherwise.  Read as element content that fragment holds no
    tag but [<br/>] and stands for exactly the characters of the text with a
    line break for each newline; no quote character occurs in it. *)
Theorem view_escapes_text (env : Env) (tok : string) (w : World) (row : Db.Row) :
  Db.select_one tok (db w) = Some row ->
  (clock env <= Db.expires_at row)%Q ->
  view env tok w =
    (Returned
       (HTMLResponse
          ((before_img +:+ img_open +:+ img_src_of row tok +:+ img_close +:+ between
              +:+ p_open)
             +:+ Html.safe_text (Db.text row) +:+ (p_close +:+ after_p))
          200), w)
  /\ Html.safe_text (Db.text row)
       = String.concat "" (escape_char <$> list_ascii_of_string (Db.text row))
  /\ read (Html.safe_text (Db.text row)) = Some (shown (Db.text row))
  /\ (forall x, x ∈ list_ascii_of_string (Html.safe_text (Db.text row)) ->
        x <> "034"%char /\ x <> "'"%char).
Proof.
  intros Hrow Hlive.
  rewrite (view_live env tok w row Hrow Hlive), page_shape.
  split; [now rewrite !string_app_assoc|].
  split; [apply safe_text_charwise|].
  split; [apply read_safe_text | apply safe_text_no_quote].
Qed.

Lemma view_escapes_text_witness :
  Db.select_one "tok-A" (db Sample.w_script) = Some Sample.row_script
  /\ (clock (Sample.at_time 120) <= Db.expires_at Sample.row_script)%Q
  /\ http_status (fst (view (Sample.at_time 120) "tok-A" Sample.w_script)) = 200%Z
  /\ Html.safe_text Sample.script
       = "&lt;script&gt;alert(&#x27;x&#x27;)&lt;/script&gt;<br/>a&amp;b"
  /\ read (Html.safe_text Sample.script) = Some (shown Sample.script).
Proof.
  assert (Hrow : Db.select_one "tok-A" (db Sample.w_script) = Some Sample.row_script)
    by reflexivity.
  assert (Hlive : (clock (Sample.at_time 120) <= Db.expires_at Sample.row_script)%Q)
    by (vm_compute; discriminate).
  destruct (view_escapes_text (Sample.at_time 120) "tok-A" Sample.w_script
              Sample.row_script Hrow Hlive) as (Hview & _ & Hread & _).
  split; [exact Hrow|]. split; [exact Hlive|].
  split; [now rewrite Hview|].
  split; [reflexivity | exact Hread].
Defined.

(** ** What a request can do to the world *)

Lemma view_world (env : Env) (tok : string) (w : World) :
  snd (view env tok w) = w
  \/ (snd (view env tok w) = purged tok w
      /\ exists row, Db.select_one tok (db w) = Some row
                     /\ (Db.expires_at row < clock env)%Q).
Proof.
  destruct (Db.select_one tok (db w)) as [row|] eqn:Hrow.
  - destruct (Qlt_le_dec (Db.expires_at row) (clock env)) as [Hlt|Hle].
    + right. rewrite (view_expired env tok w row Hrow Hlt). eauto.
    + left. now rewrite (view_live env tok w row Hrow Hle).
  - left. now rewrite view_missing.
Qed.

Lemma get_image_world (env : Env) (tok : string) (w : World) :
  snd (get_image env tok w) = w
  \/ (snd (get_image env tok w) = purged tok w
      /\ exists row, Db.select_one tok (db w) = Some row
                     /\ (Db.expires_at row < clock env)%Q).
Proof.
  destruct (Db.select_one tok (db w)) as [row|] eqn:Hrow.
  - destruct (Qlt_le_dec (Db.expires_at row) (clock env)) as [Hlt|Hle].
    + right. rewrite (get_image_expired env tok w row Hrow Hlt). eauto.
    + left. unfold get_image, bind, fetch_message, path_exists.
      apply time_gt_false in Hle. rewrite Hrow, Hle.
      destruct (Db.image_path row) as [p|]; [|reflexivity].
      destruct (String.eqb p ""); [reflexivity|].
      now destruct (bool_decide (is_Some (files w !! p))).
  - left. now rewrite get_image_missing.
Qed.

Lemma send_link_world (cfg : Config) (env : Env) (to text : string) (ttl : Z)
    (subject : string) (image : option UploadFile) (image_url : option string)
    (w : World) :
  let w' := snd (send_link cfg env to text ttl subject image image_url w) in
  (db w' = db w /\ outbox w' = outbox w
   /\ (files w' = files w
       \/ exists img data,
            image = Some img
            /\ files w' = <[upload_path cfg (rand_token env) img := data]> (files w)))
  \/ (exists expiry,
        names_image image image_url = true
        /\ float_add cfg (clock env) ttl = Some expiry
        /\ Db.select_one (rand_token env) (db w) = None
        /\ db w' = db w ++ [sent_row cfg env to text expiry subject image image_url]
        /\ files w' = files_with_upload cfg (rand_token env) image (files w)
        /\ (outbox w' = outbox w
            \/ (mail_goes_out cfg env = true
                /\ outbox w' = outbox w ++ [mail_of cfg (rand_token env) to subject ttl]))).
Proof.
  intros w'. subst w'.
  destruct (send_link_cases cfg env to text ttl subject image image_url w)
    as [[_ ->] | [(_ & _ & ->) | (Hacc & expiry & Hsum & Hrest)]];
    [left; auto .. |].
  destruct Hrest as [(img & _ & ->) | [(img & kept & Himg & ->) | (Hdisk & Hrest)]].
  - left. auto.
  - left. simpl. split; [reflexivity|]. split; [reflexivity|]. right. eauto.
  - destruct Hrest as [(old & _ & ->) | [(Hsel & _ & e & -> & _) | (Hsel & Hmail & ->)]].
    + left. simpl. split; [reflexivity|]. split; [reflexivity|].
      destruct image as [img|]; simpl; [right; eauto | left; reflexivity].
    + right. exists expiry. simpl. auto 10.
    + right. exists expiry. simpl. auto 10.
Qed.

Lemma files_with_upload_keeps (cfg : Config) (tok : string)
    (image : option UploadFile) (fs : gmap string string) (p : string) :
  is_Some (fs !! p) -> is_Some (files_with_upload cfg tok image fs !! p).
Proof.
  intros Hp. destruct image as [img|]; simpl; [|exact Hp].
  destruct (decide (upload_path cfg tok img = p)) as [->|Hne].
  - rewrite lookup_insert_eq. eauto.
  - now rewrite lookup_insert_ne.
Qed.

Lemma overwrite_keeps (fs : gmap string string) (q data p : string) :
  is_Some (fs !! p) -> is_Some (<[q := data]> fs !! p).
Proof.
  intros Hp. destruct (decide (q = p)) as [->|Hne].
  - rewrite lookup_insert_eq. eauto.
  - now rewrite lookup_insert_ne.
Qed.

(** No request takes a file away. *)
Lemma handle_keeps_files (cfg : Config) (env : Env) (req : Request) (w : World)
    (p : string) :
  is_Some (files w !! p) -> is_Some (files (snd (handle cfg env req w)) !! p).
Proof.
  intros Hp. destruct req as [to text ttl subject image image_url | tok | tok]; simpl.
  - destruct (send_link_world cfg env to text ttl subject image image_url w)
      as [(_ & _ & [-> | (img & data & _ & ->)])
         | (expiry & _ & _ & _ & _ & -> & _)].
    + exact Hp.
    + now apply overwrite_keeps.
    + now apply files_with_upload_keeps.
  - destruct (get_image_world env tok w) as [-> | [-> _]]; exact Hp.
  - destruct (view_world env tok w) as [-> | [-> _]]; exact Hp.
Qed.

(** A request leaves the primary key intact. *)
Lemma handle_keeps_tokens_unique (cfg : Config) (env : Env) (req : Request)
    (w : World) :
  Db.tokens_unique (db w) -> Db.tokens_unique (db (snd (handle cfg env req w))).
Proof.
  intros Hu. destruct req as [to text ttl subject image image_url | tok | tok]; simpl.
  - destruct (send_link_world cfg env to text ttl subject image image_url w)
      as [(-> & _) | (expiry & _ & _ & Hfresh & -> & _)]; [exact Hu|].
    apply (tokens_unique_insert
             (sent_row cfg env to text expiry subject image image_url) (db w));
      [exact Hu | now apply insert_fresh].
  - destruct (get_image_world env tok w) as [-> | [-> _]];
      [exact Hu | now apply tokens_unique_delete].
  - destruct (view_world env tok w) as [-> | [-> _]];
      [exact Hu | now apply tokens_unique_delete].
Qed.

Lemma serve_cons (cfg : Config) (env : Env) (req : Request)
    (run : list (Env * Request)) (w : World) :
  serve cfg ((env, req) :: run) w =
    (fst (handle cfg env req w) :: fst (serve cfg run (snd (handle cfg env req w))),
     snd (serve cfg run (snd (handle cfg env req w)))).
Proof.
  simpl. destruct (handle cfg env req w) as [r w']. simpl.
  now destruct (serve cfg run w').
Qed.


Lemma serve_keeps_tokens_unique (cfg : Config) (run : list (Env * Request))
    (w : World) :
  Db.tokens_unique (db w) -> Db.tokens_unique (db (snd (serve cfg run w))).
Proof.
  revert w. induction run as [|[env req] run IH]; intros w Hu; [exact Hu|].
  rewrite serve_cons. simpl. apply IH. now apply handle_keeps_tokens_unique.
Qed.

(** Every row was written by a send request that named an image source
    and whose sum was computed. *)
Lemma handle_rows_from_send (cfg : Config) (env : Env) (req : Request) (w : World)
    (row : Db.Row) :
  row ∈ db (snd (handle cfg env req w)) ->
  row ∈ db w
  \/ exists to text ttl subject image image_url expiry,
       req = PostSend to text ttl subject image image_url
       /\ names_image image image_url = true
       /\ float_add cfg (clock env) ttl = Some expiry
       /\ row = sent_row cfg env to text expiry subject image image_url.
Proof.
  destruct req as [to text ttl subject image image_url | tok | tok]; simpl.
  - destruct (send_link_world cfg env to text ttl subject image image_url w)
      as [(-> & _) | (expiry & Hacc & Hsum & _ & -> & _)]; [auto|].
    rewrite elem_of_app, list_elem_of_singleton. intros [H | ->]; [auto|].
    right. exists to, text, ttl, subject, image, image_url, expiry. auto.
  - destruct (get_image_world env tok w) as [-> | [-> _]]; [auto|].
    simpl. unfold Db.delete. rewrite list_elem_of_filter. tauto.
  - destruct (view_world env tok w) as [-> | [-> _]]; [auto|].
    simpl. unfold Db.delete. rewrite list_elem_of_filter. tauto.
Qed.

Lemma serve_rows_from_send (cfg : Config) (run : list (Env * Request)) (w : World)
    (row : Db.Row) :
  row ∈ db (snd (serve cfg run w)) ->
  row ∈ db w
  \/ exists env to text ttl subject image image_url expiry,
       (env, PostSend to text ttl subject image image_url) ∈ run
       /\ names_image image image_url = true
       /\ float_add cfg (clock env) ttl = Some expiry
       /\ row = sent_row cfg env to text expiry subject image image_url.
Proof.
  revert w. induction run as [|[env req] run IH]; intros w; [auto|].
  rewrite serve_cons. simpl. intros Hin.
  destruct (IH _ Hin)
    as [Hin' | (e & to & text & ttl & subject & image & url & expiry & Hmem & Hrest)].
  - destruct (handle_rows_from_send cfg env req w row Hin')
      as [? | (to & text & ttl & subject & image & url & expiry & -> & Hrest)]; [auto|].
    right. exists env, to, text, ttl, subject, image, url, expiry.
    split; [apply elem_of_cons; auto | exact Hrest].
  - right. exists e, to, text, ttl, subject, image, url, expiry.
    split; [apply elem_of_cons; auto | exact Hrest].
Qed.

(** ** The primary key *)

(** X17. In every world the server reaches from the empty table, no two
    rows share a token (two positions of the table with the same token are
    the same position), and every row is the row of a send request of the
    run that named an image source: it carries the token that request drew,
    the clock of that request as creation time and the sum that request
    computed as expiry time. *)
Theorem stored_tokens_are_unique (cfg : Config) (run : list (Env * Request)) :
  let t := db (snd (serve cfg run init_world)) in
  Db.tokens_unique t
  /\ (forall i j ri rj, t !! i = Some ri -> t !! j = Some rj ->
        Db.token ri = Db.token rj -> i = j)
  /\ (forall row, row ∈ t ->
        exists env to text ttl subject image image_url expiry,
          (env, PostSend to text ttl subject image image_url) ∈ run
          /\ names_image image image_url = true
          /\ float_add cfg (clock env) ttl = Some expiry
          /\ row = sent_row cfg env to text expiry subject image image_url).
Proof.
  intros t.
  assert (Hu : Db.tokens_unique t).
  { apply serve_keeps_tokens_unique. apply NoDup_nil_2. }
  split; [exact Hu|]. split.
  - intros i j ri rj Hi Hj Heq.
    apply (NoDup_lookup (Db.token <$> t) i j (Db.token ri)); [exact Hu | |].
    + now rewrite list_lookup_fmap, Hi.
    + now rewrite list_lookup_fmap, Hj, Heq.
  - intros row Hin.
    destruct (serve_rows_from_send cfg run init_world row Hin) as [Habs | H];
      [now apply elem_of_nil in Habs | exact H].
Qed.

(** ** Files outlive their rows *)

Lemma serve_keeps_files (cfg : Config) (run : list (Env * Request)) (w : World)
    (p : string) :
  is_Some (files w !! p) -> is_Some (files (snd (serve cfg run w)) !! p).
Proof.
  revert w. induction run as [|[env req] run IH]; intros w Hp; [exact Hp|].
  rewrite serve_cons. simpl. apply IH. now apply handle_keeps_files.
Qed.

(** Once the table has no row for a token, both endpoints answer 404 for it
    and change nothing. *)
Lemma access_missing (cfg : Config) (env : Env) (req : Request) (tok : string)
    (w : World) :
  access tok req -> Db.select_one tok (db w) = None ->
  http_status (fst (handle cfg env req w)) = 404%Z /\ snd (handle cfg env req w) = w.
Proof.
  intros [-> | ->] Hnone; simpl.
  - now rewrite view_missing.
  - now rewrite get_image_missing.
Qed.

(** The access that finds a row expired answers 410 and leaves the world
    with that row deleted and nothing else changed. *)
Lemma access_expired (cfg : Config) (env : Env) (req : Request) (tok : string)
    (w : World) (row : Db.Row) :
  access tok req -> Db.select_one tok (db w) = Some row ->
  (Db.expires_at row < clock env)%Q ->
  http_status (fst (handle cfg env req w)) = 410%Z
  /\ snd (handle cfg env req w) = purged tok w.
Proof.
  intros [-> | ->] Hrow Hexp; simpl.
  - now rewrite (view_expired env tok w row Hrow Hexp).
  - now rewrite (get_image_expired env tok w row Hrow Hexp).
Qed.

(** C10. The access that finds a record expired deletes its row and nothing
    else: the upload directory is what it was, so the image file written
    under the record's path is still on disk, no later request of any kind
    removes it, and both endpoints answer 404 for the token from then on. *)
Theorem expiry_deletes_the_row_not_the_file
    (cfg : Config) (env : Env) (req : Request) (tok : string) (w : World)
    (row : Db.Row) (p : string) :
  access tok req ->
  Db.select_one tok (db w) = Some row ->
  (Db.expires_at row < clock env)%Q ->
  Db.image_path row = Some p ->
  is_Some (files w !! p) ->
  let w' := snd (handle cfg env req w) in
  Db.select_one tok (db w') = None
  /\ files w' = files w
  /\ is_Some (files w' !! p)
  /\ (forall run, is_Some (files (snd (serve cfg run w')) !! p))
  /\ (forall env' req', access tok req' ->
        http_status (fst (handle cfg env' req' w')) = 404%Z
        /\ snd (handle cfg env' req' w') = w').
Proof.
  intros Hacc Hrow Hexp Hpath Hfile w'.
  destruct (access_expired cfg env req tok w row Hacc Hrow Hexp) as [_ Hw'].
  subst w'. rewrite Hw'. simpl.
  assert (Hnone : Db.select_one tok (Db.delete tok (db w)) = None)
    by apply select_one_delete_eq.
  split; [exact Hnone|]. split; [reflexivity|]. split; [exact Hfile|]. split.
  - intros run. now apply serve_keeps_files.
  - intros env' req' Hacc'.
    exact (access_missing cfg env' req' tok (purged tok w) Hacc' Hnone).
Qed.

Lemma expiry_deletes_the_row_not_the_file_witness :
  let row := Db.mkRow "tok-A" "bob@example.org" "Hi" "hello"
               (Some "/home/site/data/uploads/tok-A.jpg") None
               (100 + inject_Z 60)%Q 100%Q in
  let w' := snd (handle Sample.cfg (Sample.at_time 161) (GetView "tok-A") Sample.w_photo) in
  access "tok-A" (GetView "tok-A")
  /\ Db.select_one "tok-A" (db Sample.w_photo) = Some row
  /\ (Db.expires_at row < clock (Sample.at_time 161))%Q
  /\ files Sample.w_photo !! "/home/site/data/uploads/tok-A.jpg" = Some "JFIF"
  /\ Db.select_one "tok-A" (db w') = None
  /\ is_Some (files w' !! "/home/site/data/uploads/tok-A.jpg")
  /\ http_status (fst (handle Sample.cfg (Sample.at_time 162) (GetImage "tok-A") w'))
       = 404%Z.
Proof.
  intros row w'.
  assert (Hacc : access "tok-A" (GetView "tok-A")) by (left; reflexivity).
  assert (Hrow : Db.select_one "tok-A" (db Sample.w_photo) = Some row) by reflexivity.
  assert (Hexp : (Db.expires_at row < clock (Sample.at_time 161))%Q) by reflexivity.
  assert (Hfile : files Sample.w_photo !! "/home/site/data/uploads/tok-A.jpg"
                  = Some "JFIF") by reflexivity.
  destruct (expiry_deletes_the_row_not_the_file Sample.cfg (Sample.at_time 161)
              (GetView "tok-A") "tok-A" Sample.w_photo row
              "/home/site/data/uploads/tok-A.jpg" Hacc Hrow Hexp eq_refl
              (ex_intro _ _ Hfile))
    as (Hnone & _ & Hstill & _ & Hlater).
  split; [exact Hacc|]. split; [exact Hrow|]. split; [exact Hexp|].
  split; [exact Hfile|]. split; [exact Hnone|]. split; [exact Hstill|].
  exact (proj1 (Hlater (Sample.at_time 162) (GetImage "tok-A")
                  (or_intror eq_refl))).
Defined.

(** ** A mail that does not go out *)

Lemma string_app_empty (a b : string) : a +:+ b = "" -> b = "".
Proof. destruct a; [auto | discriminate]. Qed.

Lemma upload_path_nonempty (cfg : Config) (tok : string) (img : UploadFile) :
  upload_path cfg tok img <> "".
Proof.
  unfold upload_path, Py.path_join.
  set (ext := Py.str_or _ ".png").
  assert (Hext : ext <> "").
  { subst ext. unfold Py.str_or.
    destruct (String.eqb_spec (splitext_lower cfg (Py.opt_or (filename img) "")) "");
      [discriminate | assumption]. }
  assert (Hname : tok +:+ ext <> "") by (intros H; now apply string_app_empty in H).
  destruct (String.prefix "/" (tok +:+ ext)); [exact Hname|].
  destruct (String.eqb (UPLOAD_DIR cfg) ""); [exact Hname|].
  destruct (String.eqb _ "/"); intros H.
  - now apply string_app_empty in H.
  - apply string_app_empty in H. now apply string_app_empty in H.
Qed.

Lemma files_with_upload_has (cfg : Config) (tok : string) (img : UploadFile)
    (fs : gmap string string) :
  files_with_upload cfg tok (Some img) fs !! upload_path cfg tok img
    = Some (content img).
Proof. simpl. apply lookup_insert_eq. Qed.

(** C9. Take a send request that reaches the provider call: it named an
    image source, its sum of clock and ttl was computed, its upload, if any,
    was written, and its row went in under a fresh token.  When the mail then
    does not go out (a setting is missing or the provider raises), the
    request ends in an exception that is not an [HTTPException], answered
    500, and no mail is recorded; yet the row is in the table and the
    uploaded file, if any, on disk, neither is rolled back, and as long as
    the clock has not passed the stored expiry time the view endpoint answers
    200 with the page and the image endpoint serves the uploaded file. *)
Theorem mail_failure_leaves_record
    (cfg : Config) (env : Env) (to text : string) (ttl : Z) (subject : string)
    (image : option UploadFile) (image_url : option string) (w : World)
    (expiry : Q) :
  names_image image image_url = true ->
  float_add cfg (clock env) ttl = Some expiry ->
  upload_lands env image = true ->
  Db.select_one (rand_token env) (db w) = None ->
  mail_goes_out cfg env = false ->
  let tok := rand_token env in
  let row := sent_row cfg env to text expiry subject image image_url in
  exists e w',
    send_link cfg env to text ttl subject image image_url w = (Raised e, w')
    /\ http_status (Raised e) = 500%Z
    /\ outbox w' = outbox w
    /\ Db.select_one tok (db w') = Some row
    /\ (forall img, image = Some img ->
          files w' !! upload_path cfg tok img = Some (content img))
    /\ (forall env', (clock env' <= expiry)%Q ->
          view env' tok w' =
            (Returned (HTMLResponse
                         (Html.page (img_src_of row tok) (Html.safe_text text)) 200), w')
          /\ (forall img, image = Some img ->
                get_image env' tok w'
                  = (Returned (FileResponse (upload_path cfg tok img)), w'))).
Proof.
  intros Hacc Hsum Hdisk Hfresh Hmail tok row.
  destruct (send_link_mail_fails cfg env to text ttl subject image image_url w expiry
              Hacc Hsum Hdisk Hfresh Hmail) as (e & Hsend & Hstatus).
  exists e, (stored cfg env to text expiry subject image image_url w).
  pose proof (stored_select cfg env to text expiry subject image image_url w Hfresh)
    as Hrow.
  split; [exact Hsend|]. split; [exact Hstatus|]. split; [reflexivity|].
  split; [exact Hrow|]. split.
  - intros img ->. apply files_with_upload_has.
  - intros env' Hlive. split.
    + exact (view_live env' tok _ row Hrow Hlive).
    + intros img ->.
      apply (get_image_served env' tok _ row (upload_path cfg tok img) Hrow Hlive).
      * reflexivity.
      * apply upload_path_nonempty.
      * simpl. rewrite lookup_insert_eq. eauto.
Qed.

Lemma mail_failure_leaves_record_witness :
  names_image (Some Sample.photo) None = true
  /\ float_add Sample.cfg (clock Sample.env_mail_down) 60 = Some (100 + inject_Z 60)%Q
  /\ upload_lands Sample.env_mail_down (Some Sample.photo) = true
  /\ Db.select_one (rand_token Sample.env_mail_down) (db init_world) = None
  /\ mail_goes_out Sample.cfg Sample.env_mail_down = false
  /\ exists e w',
       send_link Sample.cfg Sample.env_mail_down "bob@example.org" "hello" 60 "Hi"
         (Some Sample.photo) None init_world = (Raised e, w')
       /\ http_status (Raised e) = 500%Z
       /\ http_status (fst (view (Sample.at_time 120) "tok-A" w')) = 200%Z
       /\ get_image (Sample.at_time 120) "tok-A" w'
            = (Returned (FileResponse "/home/site/data/uploads/tok-A.jpg"), w').
Proof.
  assert (Hacc : names_image (Some Sample.photo) None = true) by reflexivity.
  assert (Hsum : float_add Sample.cfg (clock Sample.env_mail_down) 60
                 = Some (100 + inject_Z 60)%Q) by reflexivity.
  assert (Hdisk : upload_lands Sample.env_mail_down (Some Sample.photo) = true)
    by reflexivity.
  assert (Hfresh : Db.select_one (rand_token Sample.env_mail_down) (db init_world)
                   = None) by reflexivity.
  assert (Hmail : mail_goes_out Sample.cfg Sample.env_mail_down = false)
    by reflexivity.
  split; [exact Hacc|]. split; [exact Hsum|]. split; [exact Hdisk|].
  split; [exact Hfresh|]. split; [exact Hmail|].
  destruct (mail_failure_leaves_record Sample.cfg Sample.env_mail_down
              "bob@example.org" "hello" 60 "Hi" (Some Sample.photo) None init_world
              (100 + inject_Z 60)%Q Hacc Hsum Hdisk Hfresh Hmail)
    as (e & w' & Hsend & Hstatus & _ & _ & _ & Hserved).
  exists e, w'. split; [exact Hsend|]. split; [exact Hstatus|].
  assert (Hlive : (clock (Sample.at_time 120) <= 100 + inject_Z 60)%Q)
    by (vm_compute; discriminate).
  destruct (Hserved (Sample.at_time 120) Hlive) as [Hview Himage].
  split.
  - change (rand_token Sample.env_mail_down) with "tok-A" in Hview. now rewrite Hview.
  - exact (Himage Sample.photo eq_refl).
Defined.

(** ** The life of a record *)

Lemma send_link_creates (cfg : Config) (env : Env) (to text : string) (ttl : Z)
    (subject : string) (image : option UploadFile) (image_url : option string)
    (w : World) (expiry : Q) :
  names_image image image_url = true ->
  float_add cfg (clock env) ttl = Some expiry ->
  upload_lands env image = true ->
  Db.select_one (rand_token env) (db w) = None ->
  let w' := snd (send_link cfg env to text ttl subject image image_url w) in
  db w' = db w ++ [sent_row cfg env to text expiry subject image image_url]
  /\ files w' = files_with_upload cfg (rand_token env) image (files w).
Proof.
  intros Hacc Hsum Hdisk Hfresh w'. subst w'.
  destruct (mail_goes_out cfg env) eqn:Hmail.
  - rewrite (send_link_sent _ _ _ _ _ _ _ _ _ expiry) by assumption. auto.
  - destruct (send_link_mail_fails cfg env to text ttl subject image image_url w expiry
                Hacc Hsum Hdisk Hfresh Hmail) as (e & -> & _).
    auto.
Qed.

Lemma handle_keeps_row (cfg : Config) (env : Env) (req : Request) (w : World)
    (tok : string) (row : Db.Row) :
  Db.select_one tok (db w) = Some row ->
  keeps_live tok (Db.expires_at row) (env, req) ->
  Db.select_one tok (db (snd (handle cfg env req w))) = Some row.
Proof.
  intros Hrow Hkeep. unfold keeps_live in Hkeep.
  destruct req as [to text ttl subject image image_url | t | t]; simpl in *.
  - destruct (send_link_world cfg env to text ttl subject image image_url w)
      as [(-> & _) | (expiry & _ & _ & _ & -> & _)]; [exact Hrow|].
    now apply select_one_app_seen.
  - destruct (get_image_world env t w) as [-> | [-> (row' & Hrow' & Hexp)]];
      [exact Hrow|]. simpl.
    destruct (decide (t = tok)) as [->|Hne].
    + rewrite Hrow in Hrow'. injection Hrow' as <-.
      apply Qlt_not_le in Hexp. destruct Hexp. now apply Hkeep.
    + rewrite select_one_delete_ne by congruence. exact Hrow.
  - destruct (view_world env t w) as [-> | [-> (row' & Hrow' & Hexp)]];
      [exact Hrow|]. simpl.
    destruct (decide (t = tok)) as [->|Hne].
    + rewrite Hrow in Hrow'. injection Hrow' as <-.
      apply Qlt_not_le in Hexp. destruct Hexp. now apply Hkeep.
    + rewrite select_one_delete_ne by congruence. exact Hrow.
Qed.

Lemma serve_keeps_row (cfg : Config) (run : list (Env * Request)) (w : World)
    (tok : string) (row : Db.Row) :
  Db.select_one tok (db w) = Some row ->
  Forall (keeps_live tok (Db.expires_at row)) run ->
  Db.select_one tok (db (snd (serve cfg run w))) = Some row.
Proof.
  revert w. induction run as [|[env req] run IH]; intros w Hrow Hall; [exact Hrow|].
  apply Forall_cons in Hall as [Hkeep Hall].
  rewrite serve_cons. simpl. apply IH; [|exact Hall].
  now apply handle_keeps_row.
Qed.






(** ** The two image sources *)

(** Against C4 as stated: a send request that brings both an upload and a
    URL succeeds, writes the file and records both the path and the URL in
    one row. *)
Lemma send_with_both_sources_keeps_both :
  send_link Sample.cfg Sample.env "bob@example.org" "hello" 60 "Hi"
    (Some Sample.photo) (Some Sample.url) init_world
  = (Returned (JSONResponse "sent" "https://links.example/view/tok-A"
                 (100 + inject_Z 60)%Q), Sample.w_both)
  /\ db Sample.w_both
     = [Db.mkRow "tok-A" "bob@example.org" "Hi" "hello"
          (Some "/home/site/data/uploads/tok-A.jpg") (Some Sample.url)
          (100 + inject_Z 60)%Q 100%Q]
  /\ files Sample.w_both !! "/home/site/data/uploads/tok-A.jpg" = Some "JFIF".
Proof. split; [reflexivity|]. split; reflexivity. Qed.

(** C4 (amended). A send request that names no image source is rejected
    with 400 and changes nothing.  One that names at least one, whose sum is
    computed and whose upload, if any, is written, and that draws a fresh
    token, leaves a row whose path column is set exactly when a file was
    uploaded, that file being on disk, and whose URL column is the URL of the
    form, both when the form brought both; nothing is written to disk when no
    file was uploaded.  The view endpoint, asked for that record while the
    clock has not passed its expiry time, answers 200 with the page whose
    image tag uses one source: the URL when it is non-empty, the image
    endpoint's link of the token otherwise. *)
Theorem send_keeps_the_sources_given
    (cfg : Config) (env : Env) (to text : string) (ttl : Z) (subject : string)
    (image : option UploadFile) (image_url : option string) (w : World) :
  let tok := rand_token env in
  let w' := snd (send_link cfg env to text ttl subject image image_url w) in
  (names_image image image_url = false ->
     send_link cfg env to text ttl subject image image_url w
     = (Raised (HTTPException 400 "Provide image upload or image_url"), w))
  /\ (forall expiry,
      names_image image image_url = true ->
      float_add cfg (clock env) ttl = Some expiry ->
      upload_lands env image = true ->
      Db.select_one tok (db w) = None ->
      exists row,
        Db.select_one tok (db w') = Some row
        /\ Db.image_path row = upload_path cfg tok <$> image
        /\ Db.image_url row = image_url
        /\ (forall img, image = Some img ->
              files w' !! upload_path cfg tok img = Some (content img))
        /\ (image = None -> files w' = files w)
        /\ (forall env', (clock env' <= expiry)%Q ->
              view env' tok w' =
                (Returned
                   (HTMLResponse
                      (before_img +:+ img_open
                         +:+ (if Py.truthy_str image_url then Py.format_opt image_url
                              else "/image/" +:+ tok)
                         +:+ img_close +:+ between +:+ p_open
                         +:+ Html.safe_text text +:+ p_close +:+ after_p)
                      200), w'))).
Proof.
  intros tok w'. split.
  - apply send_link_rejected.
  - intros expiry Hacc Hsum Hdisk Hfresh.
    destruct (send_link_creates cfg env to text ttl subject image image_url w expiry
                Hacc Hsum Hdisk Hfresh) as [Hdb Hfiles].
    set (row := sent_row cfg env to text expiry subject image image_url).
    assert (Hrow : Db.select_one tok (db w') = Some row).
    { subst w'. rewrite Hdb.
      apply (stored_select cfg env to text expiry subject image image_url w Hfresh). }
    exists row. split; [exact Hrow|].
    split; [reflexivity|]. split; [reflexivity|]. split.
    { intros img ->. subst w'. rewrite Hfiles. apply files_with_upload_has. }
    split.
    { intros ->. subst w'. now rewrite Hfiles. }
    intros env' Hlive.
    rewrite (view_live env' tok w' row Hrow Hlive), page_shape.
    replace (img_src_of row tok)
      with (if Py.truthy_str image_url then Py.format_opt image_url
            else "/image/" +:+ tok); [reflexivity|].
    unfold img_src_of. simpl. destruct image_url as [u|]; simpl; [|reflexivity].
    now destruct (String.eqb u "").
Qed.

Lemma send_keeps_the_sources_given_witness :
  names_image (Some Sample.photo) (Some Sample.url) = true
  /\ float_add Sample.cfg (clock Sample.env) 60 = Some (100 + inject_Z 60)%Q
  /\ upload_lands Sample.env (Some Sample.photo) = true
  /\ Db.select_one (rand_token Sample.env) (db init_world) = None
  /\ (clock (Sample.at_time 120) <= 100 + inject_Z 60)%Q
  /\ exists row,
       Db.select_one "tok-A" (db Sample.w_both) = Some row
       /\ Db.image_path row = Some "/home/site/data/uploads/tok-A.jpg"
       /\ Db.image_url row = Some Sample.url
       /\ view (Sample.at_time 120) "tok-A" Sample.w_both =
            (Returned
               (HTMLResponse
                  (before_img +:+ img_open +:+ Sample.url +:+ img_close +:+ between
                     +:+ p_open +:+ Html.safe_text "hello" +:+ p_close +:+ after_p)
                  200), Sample.w_both).
Proof.
  assert (Hacc : names_image (Some Sample.photo) (Some Sample.url) = true)
    by reflexivity.
  assert (Hsum : float_add Sample.cfg (clock Sample.env) 60 = Some (100 + inject_Z 60)%Q)
    by reflexivity.
  assert (Hdisk : upload_lands Sample.env (Some Sample.photo) = true) by reflexivity.
  assert (Hfresh : Db.select_one (rand_token Sample.env) (db init_world) = None)
    by reflexivity.
  assert (Hlive : (clock (Sample.at_time 120) <= 100 + inject_Z 60)%Q)
    by (vm_compute; discriminate).
  split; [exact Hacc|]. split; [exact Hsum|]. split; [exact Hdisk|].
  split; [exact Hfresh|]. split; [exact Hlive|].
  destruct (proj2 (send_keeps_the_sources_given Sample.cfg Sample.env
                     "bob@example.org" "hello" 60 "Hi" (Some Sample.photo)
                     (Some Sample.url) init_world) _ Hacc Hsum Hdisk Hfresh)
    as (row & Hrow & Hpath & Hurl & _ & _ & Hview).
  exists row. split; [exact Hrow|]. split; [exact Hpath|]. split; [exact Hurl|].
  exact (Hview (Sample.at_time 120) Hlive).
Defined.

(** * Further properties of the handlers *)

(** ** A send that goes through *)

(** X1. An accepted send request with a fresh token, whose sum of clock
    and ttl is computed, whose upload, if any, is written and whose mail goes
    out, answers with status [sent], the link [BASE_URL/view/token] and that
    sum as expiry time; it adds one row, created at the clock and expiring
    at the time it answers with, and hands the provider exactly one mail:
    from [FROM_EMAIL], to the recipient, under the subject, its text the
    announcement of the ttl and, on a line of its own, the link of the
    answer. *)
Theorem accepted_send_mails_the_link_it_returns
    (cfg : Config) (env : Env) (to text : string) (ttl : Z) (subject : string)
    (image : option UploadFile) (image_url : option string) (w : World)
    (expiry : Q) :
  names_image image image_url = true ->
  float_add cfg (clock env) ttl = Some expiry ->
  upload_lands env image = true ->
  Db.select_one (rand_token env) (db w) = None ->
  mail_goes_out cfg env = true ->
  exists link row mail w',
    send_link cfg env to text ttl subject image image_url w
      = (Returned (JSONResponse "sent" link expiry), w')
    /\ link = Py.format_opt (BASE_URL cfg) +:+ "/view/" +:+ rand_token env
    /\ db w' = db w ++ [row]
    /\ Db.token row = rand_token env /\ Db.recipient row = to
    /\ Db.text row = text /\ Db.image_url row = image_url
    /\ Db.created_at row = clock env /\ Db.expires_at row = expiry
    /\ outbox w' = outbox w ++ [mail]
    /\ FROM_EMAIL cfg = Some (senderAddress mail)
    /\ to_address mail = to /\ mail_subject mail = subject
    /\ plainText mail =
         "Open your link (expires in " +:+ Py.format_int ttl +:+ " seconds):"
           +:+ Html.nl +:+ link.
Proof.
  intros Hacc Hsum Hdisk Hfresh Hmail.
  eexists _, (sent_row cfg env to text expiry subject image image_url),
    (mail_of cfg (rand_token env) to subject ttl), _.
  rewrite (send_link_sent _ _ _ _ _ _ _ _ _ expiry) by assumption.
  repeat (split; [reflexivity|]).
  split; [|repeat (split; [reflexivity|]); reflexivity].
  unfold mail_goes_out in Hmail.
  apply andb_true_iff in Hmail as [Hmail _]. apply andb_true_iff in Hmail as [_ Hfrom].
  simpl. now destruct (FROM_EMAIL cfg).
Qed.

Lemma accepted_send_mails_the_link_it_returns_witness :
  names_image None (Some Sample.url) = true
  /\ float_add Sample.cfg (clock Sample.env) 60 = Some (100 + inject_Z 60)%Q
  /\ upload_lands Sample.env None = true
  /\ Db.select_one (rand_token Sample.env) (db init_world) = None
  /\ mail_goes_out Sample.cfg Sample.env = true
  /\ exists mail w',
       send_link Sample.cfg Sample.env "bob@example.org" "hello" 60 "Hi" None
         (Some Sample.url) init_world
       = (Returned (JSONResponse "sent" "https://links.example/view/tok-A"
                      (100 + inject_Z 60)%Q), w')
       /\ outbox w' = [mail]
       /\ plainText mail =
            "Open your link (expires in 60 seconds):" +:+ Html.nl
              +:+ "https://links.example/view/tok-A".
Proof.
  assert (Hacc : names_image None (Some Sample.url) = true) by reflexivity.
  assert (Hsum : float_add Sample.cfg (clock Sample.env) 60 = Some (100 + inject_Z 60)%Q)
    by reflexivity.
  assert (Hdisk : upload_lands Sample.env None = true) by reflexivity.
  assert (Hfresh : Db.select_one (rand_token Sample.env) (db init_world) = None)
    by reflexivity.
  assert (Hmail : mail_goes_out Sample.cfg Sample.env = true) by reflexivity.
  split; [exact Hacc|]. split; [exact Hsum|]. split; [exact Hdisk|].
  split; [exact Hfresh|]. split; [exact Hmail|].
  destruct (accepted_send_mails_the_link_it_returns Sample.cfg Sample.env
              "bob@example.org" "hello" 60 "Hi" None (Some Sample.url) init_world
              (100 + inject_Z 60)%Q Hacc Hsum Hdisk Hfresh Hmail)
    as (link & row & mail & w' & Hsend & -> & _ & _ & _ & _ & _ & _ & _
        & Hout & _ & _ & _ & Hbody).
  exists mail, w'.
  split; [exact Hsend|]. split; [exact Hout | exact Hbody].
Defined.

(** X2. A missing [BASE_URL] is not reported: a send request that goes
    through (a fresh token, the sum computed, the upload, if any, written,
    the mail accepted) answers with and mails, as its link, the word [None]
    followed by [/view/token]. *)
Theorem unset_base_url_gives_a_None_link
    (cfg : Config) (env : Env) (to text : string) (ttl : Z) (subject : string)
    (image : option UploadFile) (image_url : option string) (w : World)
    (expiry : Q) :
  BASE_URL cfg = None ->
  names_image image image_url = true ->
  float_add cfg (clock env) ttl = Some expiry ->
  upload_lands env image = true ->
  Db.select_one (rand_token env) (db w) = None ->
  mail_goes_out cfg env = true ->
  exists mail w',
    send_link cfg env to text ttl subject image image_url w
      = (Returned (JSONResponse "sent" ("None/view/" +:+ rand_token env) expiry), w')
    /\ outbox w' = outbox w ++ [mail]
    /\ plainText mail =
         "Open your link (expires in " +:+ Py.format_int ttl +:+ " seconds):"
           +:+ Html.nl +:+ "None/view/" +:+ rand_token env.
Proof.
  intros Hbase Hacc Hsum Hdisk Hfresh Hmail.
  exists (mail_of cfg (rand_token env) to subject ttl). eexists.
  rewrite (send_link_sent _ _ _ _ _ _ _ _ _ expiry) by assumption.
  unfold link_of, mail_of, link_of. rewrite Hbase. simpl.
  split; [reflexivity|]. split; reflexivity.
Qed.

Lemma unset_base_url_gives_a_None_link_witness :
  BASE_URL Sample2.cfg_no_base = None
  /\ names_image None (Some Sample.url) = true
  /\ float_add Sample2.cfg_no_base (clock Sample.env) 60 = Some (100 + inject_Z 60)%Q
  /\ upload_lands Sample.env None = true
  /\ Db.select_one (rand_token Sample.env) (db init_world) = None
  /\ mail_goes_out Sample2.cfg_no_base Sample.env = true
  /\ exists w',
       send_link Sample2.cfg_no_base Sample.env "bob@example.org" "hello" 60 "Hi"
         None (Some Sample.url) init_world
       = (Returned (JSONResponse "sent" "None/view/tok-A" (100 + inject_Z 60)%Q), w').
Proof.
  assert (Hacc : names_image None (Some Sample.url) = true) by reflexivity.
  assert (Hsum : float_add Sample2.cfg_no_base (clock Sample.env) 60
                 = Some (100 + inject_Z 60)%Q) by reflexivity.
  assert (Hdisk : upload_lands Sample.env None = true) by reflexivity.
  assert (Hfresh : Db.select_one (rand_token Sample.env) (db init_world) = None)
    by reflexivity.
  assert (Hmail : mail_goes_out Sample2.cfg_no_base Sample.env = true) by reflexivity.
  split; [reflexivity|]. split; [exact Hacc|]. split; [exact Hsum|].
  split; [exact Hdisk|]. split; [exact Hfresh|]. split; [exact Hmail|].
  destruct (unset_base_url_gives_a_None_link Sample2.cfg_no_base Sample.env
              "bob@example.org" "hello" 60 "Hi" None (Some Sample.url) init_world
              (100 + inject_Z 60)%Q eq_refl Hacc Hsum Hdisk Hfresh Hmail)
    as (mail & w' & Hsend & _).
  exists w'. exact Hsend.
Defined.

(** ** A token drawn twice *)

(** X3. When an accepted send request whose sum is computed and whose
    upload, if any, is written draws a token the table already holds, the
    insert is refused and the request ends in an exception answered 500:
    the table and the mails are what they were and the old record is still
    looked up, but the upload of the failed request has been written under
    the path of its token and extension, in the place of whatever was stored
    there. *)
Theorem redrawn_token_fails_after_writing_the_upload
    (cfg : Config) (env : Env) (to text : string) (ttl : Z) (subject : string)
    (image : option UploadFile) (image_url : option string) (w : World)
    (expiry : Q) (old : Db.Row) :
  names_image image image_url = true ->
  float_add cfg (clock env) ttl = Some expiry ->
  upload_lands env image = true ->
  Db.select_one (rand_token env) (db w) = Some old ->
  exists e w',
    send_link cfg env to text ttl subject image image_url w = (Raised e, w')
    /\ http_status (Raised e) = 500%Z
    /\ db w' = db w /\ outbox w' = outbox w
    /\ Db.select_one (rand_token env) (db w') = Some old
    /\ (forall img, image = Some img ->
          files w' !! upload_path cfg (rand_token env) img = Some (content img))
    /\ (forall p, (forall img, image = Some img ->
                     p <> upload_path cfg (rand_token env) img) ->
          files w' !! p = files w !! p).
Proof.
  intros Hacc Hsum Hdisk Hold. eexists _, _.
  rewrite (send_link_collision cfg env to text ttl subject image image_url w expiry old
             Hacc Hsum Hdisk Hold).
  split; [reflexivity|]. split; [reflexivity|]. split; [reflexivity|].
  split; [reflexivity|]. split; [exact Hold|]. simpl. split.
  - intros img ->. apply files_with_upload_has.
  - intros p Hp. destruct image as [img|]; simpl; [|reflexivity].
    apply lookup_insert_ne. intros Heq. now apply (Hp img).
Qed.

Lemma redrawn_token_fails_after_writing_the_upload_witness :
  exists old,
    names_image (Some Sample2.other_photo) None = true
    /\ float_add Sample.cfg (clock Sample2.env_again) 60 = Some (130 + inject_Z 60)%Q
    /\ upload_lands Sample2.env_again (Some Sample2.other_photo) = true
    /\ Db.select_one (rand_token Sample2.env_again) (db Sample.w_photo) = Some old
    /\ files Sample.w_photo !! "/home/site/data/uploads/tok-A.jpg" = Some "JFIF"
    /\ exists e w',
         send_link Sample.cfg Sample2.env_again "eve@example.org" "hi" 60 "Yo"
           (Some Sample2.other_photo) None Sample.w_photo = (Raised e, w')
         /\ http_status (Raised e) = 500%Z
         /\ Db.select_one "tok-A" (db w') = Some old
         /\ files w' !! "/home/site/data/uploads/tok-A.jpg" = Some "GIF8".
Proof.
  exists (Db.mkRow "tok-A" "bob@example.org" "Hi" "hello"
            (Some "/home/site/data/uploads/tok-A.jpg") None
            (100 + inject_Z 60)%Q 100%Q).
  assert (Hacc : names_image (Some Sample2.other_photo) None = true) by reflexivity.
  assert (Hsum : float_add Sample.cfg (clock Sample2.env_again) 60
                 = Some (130 + inject_Z 60)%Q) by reflexivity.
  assert (Hdisk : upload_lands Sample2.env_again (Some Sample2.other_photo) = true)
    by reflexivity.
  split; [exact Hacc|]. split; [exact Hsum|]. split; [exact Hdisk|].
  match goal with |- ?H /\ _ => assert (Hold : H) by reflexivity end.
  split; [exact Hold|]. split; [reflexivity|].
  destruct (redrawn_token_fails_after_writing_the_upload Sample.cfg Sample2.env_again
              "eve@example.org" "hi" 60 "Yo" (Some Sample2.other_photo) None
              Sample.w_photo _ _ Hacc Hsum Hdisk Hold)
    as (e & w' & Hsend & H500 & _ & _ & Hsame & Hfile & _).
  exists e, w'. split; [exact Hsend|]. split; [exact H500|].
  split; [exact Hsame|]. exact (Hfile Sample2.other_photo eq_refl).
Defined.

(** ** Mails *)

(** What a send request can do to the mails: nothing, or add its own mail,
    and that only when it named an image source and the mail went out. *)
Lemma send_link_outbox (cfg : Config) (env : Env) (to text : string) (ttl : Z)
    (subject : string) (image : option UploadFile) (image_url : option string)
    (w : World) :
  let w' := snd (send_link cfg env to text ttl subject image image_url w) in
  outbox w' = outbox w
  \/ (names_image image image_url = true
      /\ mail_goes_out cfg env = true
      /\ Db.select_one (rand_token env) (db w) = None
      /\ outbox w' = outbox w ++ [mail_of cfg (rand_token env) to subject ttl]).
Proof.
  intros w'. subst w'.
  destruct (send_link_world cfg env to text ttl subject image image_url w)
    as [(_ & Hout & _) | (expiry & Hacc & _ & Hsel & _ & _ & [Hout | [Hmail Hout]])];
    auto.
Qed.

Lemma handle_outbox (cfg : Config) (env : Env) (req : Request) (w : World) :
  outbox (snd (handle cfg env req w)) = outbox w
  \/ exists to text ttl subject image image_url,
       req = PostSend to text ttl subject image image_url
       /\ names_image image image_url = true
       /\ mail_goes_out cfg env = true
       /\ outbox (snd (handle cfg env req w))
          = outbox w ++ [mail_of cfg (rand_token env) to subject ttl].
Proof.
  destruct req as [to text ttl subject image image_url | tok | tok]; simpl.
  - destruct (send_link_outbox cfg env to text ttl subject image image_url w)
      as [H | (Hacc & Hmail & _ & H)]; [now left|].
    right. exists to, text, ttl, subject, image, image_url. auto.
  - left. destruct (get_image_world env tok w) as [-> | [-> _]]; reflexivity.
  - left. destruct (view_world env tok w) as [-> | [-> _]]; reflexivity.
Qed.

Lemma mail_configured_needed (cfg : Config) (env : Env) :
  mail_configured cfg = false -> mail_goes_out cfg env = false.
Proof. unfold mail_configured, mail_goes_out. now intros ->. Qed.

(** X4. While one of the two mail settings is missing or empty, no send
    request is answered 200 (it is refused with 400 or ends in 500), and
    whatever requests the server handles, no mail is handed to the
    provider. *)
Theorem without_mail_settings_nothing_is_sent (cfg : Config) :
  ACS_EMAIL_CONNECTION_STRING cfg = None \/ ACS_EMAIL_CONNECTION_STRING cfg = Some ""
  \/ FROM_EMAIL cfg = None \/ FROM_EMAIL cfg = Some "" ->
  (forall env to text ttl subject image image_url w,
     let r := fst (send_link cfg env to text ttl subject image image_url w) in
     http_status r = 400%Z \/ http_status r = 500%Z)
  /\ (forall run w, outbox (snd (serve cfg run w)) = outbox w).
Proof.
  intros Hmissing.
  assert (Hconf : mail_configured cfg = false).
  { unfold mail_configured.
    destruct Hmissing as [-> | [-> | [-> | ->]]]; simpl;
      try reflexivity; apply andb_false_r. }
  split.
  - intros env to text ttl subject image image_url w r. subst r.
    destruct (names_image image image_url) eqn:Hacc;
      [|left; now rewrite send_link_rejected].
    right. pose proof (mail_configured_needed cfg env Hconf) as Hmail.
    destruct (send_link_cases cfg env to text ttl subject image image_url w)
      as [[Habs _] | [(_ & _ & ->) | (_ & expiry & _ & Hrest)]];
      [congruence | reflexivity |].
    destruct Hrest as [(img & _ & ->) | [(img & kept & _ & ->) | (_ & Hrest)]];
      [reflexivity .. |].
    destruct Hrest as [(old & _ & ->) | [(_ & _ & e & -> & H) | (_ & Habs & _)]];
      [reflexivity | exact H | congruence].
  - intros run. induction run as [|[env req] run IH]; intros w; [reflexivity|].
    rewrite serve_cons. simpl. rewrite IH.
    destruct (handle_outbox cfg env req w)
      as [H | (to & text & ttl & subject & image & url & _ & _ & Hout & _)];
      [exact H|].
    now rewrite (mail_configured_needed cfg env Hconf) in Hout.
Qed.

Lemma without_mail_settings_nothing_is_sent_witness :
  (ACS_EMAIL_CONNECTION_STRING Sample2.cfg_no_acs = None
   \/ ACS_EMAIL_CONNECTION_STRING Sample2.cfg_no_acs = Some ""
   \/ FROM_EMAIL Sample2.cfg_no_acs = None \/ FROM_EMAIL Sample2.cfg_no_acs = Some "")
  /\ http_status
       (fst (send_link Sample2.cfg_no_acs Sample.env "bob@example.org" "hello" 60 "Hi"
               None (Some Sample.url) init_world)) = 500%Z
  /\ outbox (snd (serve Sample2.cfg_no_acs Sample.busy_run init_world)) = [].
Proof.
  assert (Hmissing :
    ACS_EMAIL_CONNECTION_STRING Sample2.cfg_no_acs = None
    \/ ACS_EMAIL_CONNECTION_STRING Sample2.cfg_no_acs = Some ""
    \/ FROM_EMAIL Sample2.cfg_no_acs = None \/ FROM_EMAIL Sample2.cfg_no_acs = Some "")
    by (left; reflexivity).
  split; [exact Hmissing|].
  destruct (without_mail_settings_nothing_is_sent Sample2.cfg_no_acs Hmissing)
    as [_ Hnone].
  split; [reflexivity|]. exact (Hnone Sample.busy_run init_world).
Defined.

(** X5. Every mail handed to the provider since the service started is
    the mail of a send request of the run that named an image source and
    whose provider call went through: no mail goes out for a refused
    request, and none on behalf of a view or image request. *)
Theorem every_mail_comes_from_an_accepted_send
    (cfg : Config) (run : list (Env * Request)) (mail : Email) :
  mail ∈ outbox (snd (serve cfg run init_world)) ->
  exists env to text ttl subject image image_url,
    (env, PostSend to text ttl subject image image_url) ∈ run
    /\ names_image image image_url = true
    /\ mail_goes_out cfg env = true
    /\ mail = mail_of cfg (rand_token env) to subject ttl.
Proof.
  assert (Hgen : forall w,
    mail ∈ outbox (snd (serve cfg run w)) ->
    mail ∈ outbox w
    \/ exists env to text ttl subject image image_url,
         (env, PostSend to text ttl subject image image_url) ∈ run
         /\ names_image image image_url = true
         /\ mail_goes_out cfg env = true
         /\ mail = mail_of cfg (rand_token env) to subject ttl).
  { induction run as [|[env req] run IH]; intros w; [auto|].
    rewrite serve_cons. simpl. intros Hin.
    destruct (IH _ Hin)
      as [Hin' | (e & to & text & ttl & subject & image & url & Hmem & Hrest)].
    - destruct (handle_outbox cfg env req w)
        as [H | (to & text & ttl & subject & image & url & -> & Hacc & Hmail & H)].
      + left. now rewrite <- H.
      + rewrite H in Hin'. apply elem_of_app in Hin' as [Hin' | Hin']; [now left|].
        apply list_elem_of_singleton in Hin' as ->.
        right. exists env, to, text, ttl, subject, image, url.
        split; [apply elem_of_cons; auto | auto].
    - right. exists e, to, text, ttl, subject, image, url.
      split; [apply elem_of_cons; auto | exact Hrest]. }
  intros Hin. destruct (Hgen init_world Hin) as [Habs | H]; [|exact H].
  now apply elem_of_nil in Habs.
Qed.

Lemma every_mail_comes_from_an_accepted_send_witness :
  let mail := mail_of Sample.cfg "tok-B" "eve@example.org" "Yo" 5 in
  mail ∈ outbox (snd (serve Sample.cfg Sample.busy_run init_world))
  /\ exists env to text ttl subject image image_url,
       (env, PostSend to text ttl subject image image_url) ∈ Sample.busy_run
       /\ names_image image image_url = true
       /\ mail = mail_of Sample.cfg (rand_token env) to subject ttl.
Proof.
  intros mail.
  assert (Hin : mail ∈ outbox (snd (serve Sample.cfg Sample.busy_run init_world))).
  { apply list_elem_of_In. vm_compute. left. reflexivity. }
  split; [exact Hin|].
  destruct (every_mail_comes_from_an_accepted_send Sample.cfg Sample.busy_run mail Hin)
    as (env & to & text & ttl & subject & image & url & Hmem & Hacc & _ & Heq).
  exists env, to, text, ttl, subject, image, url. auto.
Defined.

(** ** What a view or image request can change *)

(** X6. A view or image request writes no file, hands over no mail and
    adds no row: the table it leaves is the table it found, or that table
    without the rows of the requested token, and the latter only when the row
    found for the token had expired.  Rows of other tokens are never
    touched. *)
Theorem access_changes_at_most_its_expired_row
    (cfg : Config) (env : Env) (req : Request) (tok : string) (w : World) :
  access tok req ->
  let w' := snd (handle cfg env req w) in
  files w' = files w
  /\ outbox w' = outbox w
  /\ (db w' = db w
      \/ (db w' = Db.delete tok (db w)
          /\ exists row, Db.select_one tok (db w) = Some row
                         /\ (Db.expires_at row < clock env)%Q))
  /\ (forall row, row ∈ db w' -> row ∈ db w)
  /\ (forall row, row ∈ db w -> Db.token row <> tok -> row ∈ db w').
Proof.
  intros Hacc w'.
  assert (Hw : w' = w \/ (w' = purged tok w
                          /\ exists row, Db.select_one tok (db w) = Some row
                                         /\ (Db.expires_at row < clock env)%Q)).
  { subst w'. destruct Hacc as [-> | ->]; simpl;
      [apply view_world | apply get_image_world]. }
  destruct Hw as [-> | [-> Hexp]].
  - repeat split; auto.
  - simpl. split; [reflexivity|]. split; [reflexivity|]. split; [right; auto|].
    unfold Db.delete. split.
    + intros row Hin. now apply list_elem_of_filter in Hin.
    + intros row Hin Hne. now apply list_elem_of_filter.
Qed.

Lemma access_changes_at_most_its_expired_row_witness :
  let w' := snd (handle Sample.cfg (Sample.at_time 120) (GetImage "tok-A")
                   Sample.w_photo) in
  access "tok-A" (GetImage "tok-A")
  /\ files w' = files Sample.w_photo
  /\ outbox w' = outbox Sample.w_photo
  /\ (forall row, row ∈ db w' -> row ∈ db Sample.w_photo).
Proof.
  intros w'.
  assert (Hacc : access "tok-A" (GetImage "tok-A")) by (right; reflexivity).
  split; [exact Hacc|].
  destruct (access_changes_at_most_its_expired_row Sample.cfg (Sample.at_time 120)
              (GetImage "tok-A") "tok-A" Sample.w_photo Hacc)
    as (Hfiles & Hout & _ & Hsub & _).
  split; [exact Hfiles|]. split; [exact Hout | exact Hsub].
Defined.

(** ** Records nobody opens *)

Lemma elsewhere_keeps_live (tok : string) (expiry : Q) (er : Env * Request) :
  elsewhere tok er -> keeps_live tok expiry er.
Proof.
  unfold elsewhere, keeps_live. destruct (snd er); [auto | intros Hne Heq ..];
    now destruct Hne.
Qed.

(** X7. Expiry alone deletes nothing: a record whose link is not opened
    stays in the table, with its file, through any run of requests that
    concern other tokens, however far past its expiry time their clocks are;
    it is deleted by the first view or image request for its own token after
    that time. *)
Theorem unopened_record_is_never_swept
    (cfg : Config) (run : list (Env * Request)) (w : World) (tok : string)
    (row : Db.Row) :
  Db.select_one tok (db w) = Some row ->
  Forall (elsewhere tok) run ->
  let w' := snd (serve cfg run w) in
  Db.select_one tok (db w') = Some row
  /\ (forall p, Db.image_path row = Some p -> is_Some (files w !! p) ->
        is_Some (files w' !! p))
  /\ (forall env req, access tok req -> (Db.expires_at row < clock env)%Q ->
        http_status (fst (handle cfg env req w')) = 410%Z
        /\ Db.select_one tok (db (snd (handle cfg env req w'))) = None).
Proof.
  intros Hrow Hrun w'.
  assert (Hrow' : Db.select_one tok (db w') = Some row).
  { apply serve_keeps_row; [exact Hrow|].
    eapply Forall_impl; [exact Hrun|]. intros er. apply elsewhere_keeps_live. }
  split; [exact Hrow'|]. split.
  - intros p _ Hp. now apply serve_keeps_files.
  - intros env req Hacc Hexp.
    destruct (access_expired cfg env req tok w' row Hacc Hrow' Hexp) as [H410 ->].
    split; [exact H410 | apply select_one_delete_eq].
Qed.

Lemma unopened_record_is_never_swept_witness :
  let row := Db.mkRow "tok-A" "bob@example.org" "Hi" "hello"
               (Some "/home/site/data/uploads/tok-A.jpg") None
               (100 + inject_Z 60)%Q 100%Q in
  let w' := snd (serve Sample.cfg Sample2.quiet_run Sample.w_photo) in
  Db.select_one "tok-A" (db Sample.w_photo) = Some row
  /\ Forall (elsewhere "tok-A") Sample2.quiet_run
  /\ Db.select_one "tok-A" (db w') = Some row
  /\ http_status (fst (handle Sample.cfg (Sample.at_time 8000) (GetView "tok-A") w'))
     = 410%Z.
Proof.
  intros row w'.
  assert (Hrow : Db.select_one "tok-A" (db Sample.w_photo) = Some row) by reflexivity.
  assert (Hrun : Forall (elsewhere "tok-A") Sample2.quiet_run).
  { repeat apply Forall_cons_2; try apply Forall_nil_2; unfold elsewhere; simpl;
      discriminate. }
  destruct (unopened_record_is_never_swept Sample.cfg Sample2.quiet_run Sample.w_photo
              "tok-A" row Hrow Hrun) as (Hkept & _ & Hlater).
  split; [exact Hrow|]. split; [exact Hrun|]. split; [exact Hkept|].
  exact (proj1 (Hlater (Sample.at_time 8000) (GetView "tok-A") (or_introl eq_refl)
                  eq_refl)).
Defined.

(** ** A ttl that is not positive *)

(** X8. The send endpoint does not ask the ttl to be positive.  With a
    ttl of zero or less whose sum with the clock is computed (a sum that is
    then not above the clock), the request still stores its record, but the
    record is past its expiry at every later clock reading: the first view or
    image request that comes after the send is answered 410 and deletes
    it. *)
Theorem nonpositive_ttl_is_dead_on_arrival
    (cfg : Config) (env : Env) (to text : string) (ttl : Z) (subject : string)
    (image : option UploadFile) (image_url : option string) (w : World)
    (expiry : Q) (env' : Env) (req : Request) :
  sum_not_above cfg ->
  names_image image image_url = true ->
  float_add cfg (clock env) ttl = Some expiry ->
  upload_lands env image = true ->
  Db.select_one (rand_token env) (db w) = None ->
  (ttl <= 0)%Z ->
  (clock env < clock env')%Q ->
  access (rand_token env) req ->
  let w1 := snd (send_link cfg env to text ttl subject image image_url w) in
  Db.select_one (rand_token env) (db w1)
    = Some (sent_row cfg env to text expiry subject image image_url)
  /\ http_status (fst (handle cfg env' req w1)) = 410%Z
  /\ Db.select_one (rand_token env) (db (snd (handle cfg env' req w1))) = None.
Proof.
  intros Hround Hacc Hsum Hdisk Hfresh Httl Hlater Hreq w1.
  destruct (send_link_creates cfg env to text ttl subject image image_url w expiry
              Hacc Hsum Hdisk Hfresh) as [Hdb _].
  assert (Hrow : Db.select_one (rand_token env) (db w1)
                 = Some (sent_row cfg env to text expiry subject image image_url)).
  { subst w1. rewrite Hdb.
    apply (stored_select cfg env to text expiry subject image image_url w Hfresh). }
  assert (Hexp : (Db.expires_at (sent_row cfg env to text expiry subject image image_url)
                  < clock env')%Q).
  { simpl. pose proof (Hround (clock env) ttl expiry Httl Hsum) as Hle. lra. }
  destruct (access_expired cfg env' req (rand_token env) w1 _ Hreq Hrow Hexp)
    as [H410 Hw].
  split; [exact Hrow|]. split; [exact H410|].
  rewrite Hw. apply select_one_delete_eq.
Qed.

Lemma nonpositive_ttl_is_dead_on_arrival_witness :
  let w1 := snd (send_link Sample.cfg Sample.env "bob@example.org" "hello" 0 "Hi"
                   None (Some Sample.url) init_world) in
  sum_not_above Sample.cfg
  /\ names_image None (Some Sample.url) = true
  /\ float_add Sample.cfg (clock Sample.env) 0 = Some (100 + inject_Z 0)%Q
  /\ upload_lands Sample.env None = true
  /\ Db.select_one (rand_token Sample.env) (db init_world) = None
  /\ (0 <= 0)%Z
  /\ (clock Sample.env < clock (Sample.at_time (1001 # 10)))%Q
  /\ access (rand_token Sample.env) (GetView "tok-A")
  /\ http_status (fst (handle Sample.cfg (Sample.at_time (1001 # 10))
                         (GetView "tok-A") w1)) = 410%Z.
Proof.
  intros w1.
  assert (Hround : sum_not_above Sample.cfg).
  { intros now ttl sum Httl. simpl. unfold Sample.small_sum.
    destruct (Z.abs ttl <? 2 ^ 1024)%Z; [|discriminate].
    intros [= <-]. assert (H0 : (inject_Z ttl <= inject_Z 0)%Q)
      by (rewrite <- Zle_Qle; exact Httl).
    change (inject_Z 0) with 0%Q in H0. lra. }
  assert (Hacc : names_image None (Some Sample.url) = true) by reflexivity.
  assert (Hsum : float_add Sample.cfg (clock Sample.env) 0 = Some (100 + inject_Z 0)%Q)
    by reflexivity.
  assert (Hdisk : upload_lands Sample.env None = true) by reflexivity.
  assert (Hfresh : Db.select_one (rand_token Sample.env) (db init_world) = None)
    by reflexivity.
  assert (Httl : (0 <= 0)%Z) by lia.
  assert (Hlater : (clock Sample.env < clock (Sample.at_time (1001 # 10)))%Q)
    by reflexivity.
  assert (Hreq : access (rand_token Sample.env) (GetView "tok-A"))
    by (left; reflexivity).
  split; [exact Hround|]. split; [exact Hacc|]. split; [exact Hsum|].
  split; [exact Hdisk|]. split; [exact Hfresh|]. split; [exact Httl|].
  split; [exact Hlater|]. split; [exact Hreq|].
  exact (proj1 (proj2 (nonpositive_ttl_is_dead_on_arrival Sample.cfg Sample.env
                         "bob@example.org" "hello" 0 "Hi" None (Some Sample.url)
                         init_world (100 + inject_Z 0)%Q (Sample.at_time (1001 # 10))
                         (GetView "tok-A")
                         Hround Hacc Hsum Hdisk Hfresh Httl Hlater Hreq))).
Defined.

(** ** Status codes *)


(** ** What every stored record has *)

Lemma select_one_elem (tok : string) (t : list Db.Row) (r : Db.Row) :
  Db.select_one tok t = Some r -> Db.token r = tok /\ r ∈ t.
Proof.
  unfold Db.select_one. intros H. apply find_some in H as [Hin Heq].
  split; [now apply String.eqb_eq | now apply list_elem_of_In].
Qed.

Lemma sent_row_has_source (cfg : Config) (env : Env) (to text : string) (expiry : Q)
    (subject : string) (image : option UploadFile) (image_url : option string) :
  names_image image image_url = true ->
  let row := sent_row cfg env to text expiry subject image image_url in
  Py.truthy_str (Db.image_path row) || Py.truthy_str (Db.image_url row) = true.
Proof.
  intros Hacc. unfold names_image in Hacc. simpl.
  destruct image as [img|]; simpl in *; [|exact Hacc].
  pose proof (upload_path_nonempty cfg (rand_token env) img) as Hne.
  apply String.eqb_neq in Hne. now rewrite Hne.
Qed.

Lemma handle_keeps_well_stored (cfg : Config) (env : Env) (req : Request)
    (w : World) :
  well_stored w -> well_stored (snd (handle cfg env req w)).
Proof.
  intros Hw. destruct req as [to text ttl subject image image_url | tok | tok]; simpl.
  - destruct (send_link_world cfg env to text ttl subject image image_url w)
      as [(Hdb & _ & Hfiles) | (expiry & Hacc & _ & _ & Hdb & Hfiles & _)].
    + intros row. rewrite Hdb. intros Hin. destruct (Hw row Hin) as [Hsrc Hfile].
      split; [exact Hsrc|]. intros p Hp. destruct (Hfile p Hp) as [Hne Hsome].
      split; [exact Hne|].
      destruct Hfiles as [-> | (img & data & _ & ->)];
        [exact Hsome | now apply overwrite_keeps].
    + intros row. rewrite Hdb, Hfiles, elem_of_app, list_elem_of_singleton.
      intros [Hin | ->].
      * destruct (Hw row Hin) as [Hsrc Hfile].
        split; [exact Hsrc|]. intros p Hp. destruct (Hfile p Hp) as [Hne Hsome].
        split; [exact Hne | now apply files_with_upload_keeps].
      * split; [now apply sent_row_has_source|].
        intros p. simpl. destruct image as [img|]; [|discriminate].
        intros [= <-]. split; [apply upload_path_nonempty|].
        rewrite files_with_upload_has. eauto.
  - destruct (get_image_world env tok w) as [-> | [-> _]]; [exact Hw|].
    intros row Hin. apply Hw. simpl in Hin. unfold Db.delete in Hin.
    now apply list_elem_of_filter in Hin.
  - destruct (view_world env tok w) as [-> | [-> _]]; [exact Hw|].
    intros row Hin. apply Hw. simpl in Hin. unfold Db.delete in Hin.
    now apply list_elem_of_filter in Hin.
Qed.

Lemma serve_keeps_well_stored (cfg : Config) (run : list (Env * Request))
    (w : World) :
  well_stored w -> well_stored (snd (serve cfg run w)).
Proof.
  revert w. induction run as [|[env req] run IH]; intros w Hw; [exact Hw|].
  rewrite serve_cons. simpl. apply IH. now apply handle_keeps_well_stored.
Qed.

Lemma reached_well_stored (cfg : Config) (run : list (Env * Request)) :
  well_stored (snd (serve cfg run init_world)).
Proof.
  apply serve_keeps_well_stored. intros row Hin. now apply elem_of_nil in Hin.
Qed.

(** X10. In every world the server reaches from the empty table, each
    stored row names an image source (a non-empty path or a non-empty URL),
    and the file of each row that has a path is on disk: the file is written
    before the row and no request removes a file. *)
Theorem stored_rows_have_their_image (cfg : Config) (run : list (Env * Request)) :
  let w := snd (serve cfg run init_world) in
  forall row, row ∈ db w ->
    (Py.truthy_str (Db.image_path row) || Py.truthy_str (Db.image_url row) = true)
    /\ (forall p, Db.image_path row = Some p -> p <> "" /\ is_Some (files w !! p)).
Proof. intros w. exact (reached_well_stored cfg run). Qed.

Lemma stored_rows_have_their_image_witness :
  let w := snd (serve Sample.cfg Sample.busy_run Sample.w_photo) in
  exists row, row ∈ db w
    /\ Db.image_path row = Some "/home/site/data/uploads/tok-B.jpg"
    /\ is_Some (files w !! "/home/site/data/uploads/tok-B.jpg").
Proof.
  intros w.
  set (run := (Sample.env, PostSend "bob@example.org" "hello" 60 "Hi"
                 (Some Sample.photo) None) :: Sample.busy_run).
  set (row := Db.mkRow "tok-B" "eve@example.org" "Yo" "hi"
                (Some "/home/site/data/uploads/tok-B.jpg") None
                (130 + inject_Z 5)%Q 130%Q).
  assert (Hin : row ∈ db (snd (serve Sample.cfg run init_world))).
  { apply list_elem_of_In. vm_compute. right. left. reflexivity. }
  exists row. split; [exact Hin|]. split; [reflexivity|].
  exact (proj2 (proj2 (stored_rows_have_their_image Sample.cfg run row Hin)
                  "/home/site/data/uploads/tok-B.jpg" eq_refl)).
Defined.

(** X11. The page of a live record never points at a missing image of the
    service itself: in every world reached from the empty table, when the
    row has no usable URL, so that the page takes [/image/] plus the token as
    its source, the image endpoint answers that request with the stored
    file. *)
Theorem same_origin_image_is_served
    (cfg : Config) (run : list (Env * Request)) (env : Env) (tok : string)
    (row : Db.Row) :
  let w := snd (serve cfg run init_world) in
  Db.select_one tok (db w) = Some row ->
  (clock env <= Db.expires_at row)%Q ->
  Py.truthy_str (Db.image_url row) = false ->
  img_src_of row tok = "/image/" +:+ tok
  /\ exists p, Db.image_path row = Some p
               /\ get_image env tok w = (Returned (FileResponse p), w).
Proof.
  intros w Hrow Hlive Hurl. split.
  - unfold img_src_of. destruct (Db.image_url row) as [u|]; [|reflexivity].
    simpl in Hurl. apply negb_false_iff in Hurl. now rewrite Hurl.
  - destruct (select_one_elem tok (db w) row Hrow) as [_ Hin].
    destruct (reached_well_stored cfg run row Hin) as [Hsrc Hfile].
    rewrite Hurl, orb_false_r in Hsrc.
    destruct (Db.image_path row) as [p|] eqn:Hp; [|discriminate].
    exists p. split; [reflexivity|].
    destruct (Hfile p eq_refl) as [Hne Hsome].
    now apply (get_image_served env tok w row p).
Qed.

Lemma same_origin_image_is_served_witness :
  let run := [(Sample.env, PostSend "bob@example.org" "hello" 60 "Hi"
                 (Some Sample.photo) None)] in
  let w := snd (serve Sample.cfg run init_world) in
  let row := Db.mkRow "tok-A" "bob@example.org" "Hi" "hello"
               (Some "/home/site/data/uploads/tok-A.jpg") None
               (100 + inject_Z 60)%Q 100%Q in
  Db.select_one "tok-A" (db w) = Some row
  /\ (clock (Sample.at_time 120) <= Db.expires_at row)%Q
  /\ Py.truthy_str (Db.image_url row) = false
  /\ get_image (Sample.at_time 120) "tok-A" w
     = (Returned (FileResponse "/home/site/data/uploads/tok-A.jpg"), w).
Proof.
  intros run w row.
  assert (Hrow : Db.select_one "tok-A" (db w) = Some row) by reflexivity.
  assert (Hlive : (clock (Sample.at_time 120) <= Db.expires_at row)%Q)
    by (vm_compute; discriminate).
  assert (Hurl : Py.truthy_str (Db.image_url row) = false) by reflexivity.
  split; [exact Hrow|]. split; [exact Hlive|]. split; [exact Hurl|].
  destruct (same_origin_image_is_served Sample.cfg run (Sample.at_time 120) "tok-A" row
              Hrow Hlive Hurl) as (_ & p & Hp & Hserved).
  injection Hp as <-. exact Hserved.
Defined.

(** ** More on escaping *)

Lemma text_of_shown (s : string) : text_of (shown s) = s.
Proof.
  induction s as [|c s IH]; [reflexivity|]. simpl.
  destruct (Ascii.eqb_spec c "010") as [->|Hne]; simpl; now rewrite IH.
Qed.

(** X12. Escaping loses nothing: reading the escaped text as element
    content and writing a newline for each line break gives the stored text
    back, so two different messages never produce the same fragment. *)
Theorem safe_text_can_be_read_back :
  (forall s, text_of <$> read (Html.safe_text s) = Some s)
  /\ (forall s1 s2, Html.safe_text s1 = Html.safe_text s2 -> s1 = s2).
Proof.
  assert (Hback : forall s, text_of <$> read (Html.safe_text s) = Some s).
  { intros s. rewrite read_safe_text. simpl. now rewrite text_of_shown. }
  split; [exact Hback|].
  intros s1 s2 Heq. pose proof (Hback s1) as H1. rewrite Heq, Hback in H1.
  now injection H1.
Qed.

Lemma string_length_app (a b : string) :
  String.length (a +:+ b) = String.length a + String.length b.
Proof.
  induction a as [|x a IH]; [reflexivity|].
  rewrite string_app_cons. simpl. now rewrite IH.
Qed.

Lemma escape_char_plain (c : ascii) :
  is_special c = false -> escape_char c = String c EmptyString.
Proof.
  unfold is_special, is_markup, escape_char. intros H.
  repeat (apply orb_false_iff in H as [H ?]).
  repeat match goal with Hc : Ascii.eqb c _ = false |- _ => rewrite Hc; clear Hc end.
  reflexivity.
Qed.

Lemma escape_char_length (c : ascii) :
  (is_special c = false /\ String.length (escape_char c) = 1)
  \/ (is_special c = true /\ 4 <= String.length (escape_char c) <= 6).
Proof.
  destruct (is_special c) eqn:Hs.
  - right. split; [reflexivity|]. unfold is_special, is_markup in Hs. unfold escape_char.
    destruct (Ascii.eqb c "&"); [simpl; lia|].
    destruct (Ascii.eqb c "<"); [simpl; lia|].
    destruct (Ascii.eqb c ">"); [simpl; lia|].
    destruct (Ascii.eqb c "034"); [simpl; lia|].
    destruct (Ascii.eqb c "'"); [simpl; lia|].
    destruct (Ascii.eqb c "010"); [simpl; lia | discriminate].
  - left. split; [reflexivity|]. now rewrite escape_char_plain.
Qed.

Lemma safe_text_length (s : string) :
  String.length s <= String.length (Html.safe_text s) <= 6 * String.length s.
Proof.
  induction s as [|c s IH]; [simpl; lia|].
  rewrite safe_text_cons, string_length_app. simpl String.length.
  destruct (escape_char_length c) as [[_ H] | [_ H]]; lia.
Qed.

(** X13. Text that holds none of the characters ampersand, less-than,
    greater-than, double quote, apostrophe and newline goes into the page
    unchanged, and only such text does. *)
Theorem safe_text_is_identity_on_plain_text (s : string) :
  Html.safe_text s = s
  <-> Forall (fun c => is_special c = false) (list_ascii_of_string s).
Proof.
  split.
  - intros Heq. assert (Hlen : String.length (Html.safe_text s) = String.length s)
      by now rewrite Heq.
    clear Heq. induction s as [|c s IH]; [apply Forall_nil_2|].
    rewrite safe_text_cons, string_length_app in Hlen. simpl in Hlen.
    pose proof (safe_text_length s) as Hs. simpl.
    destruct (escape_char_length c) as [[Hc H1] | [_ H4]]; [|lia].
    apply Forall_cons_2; [exact Hc | apply IH; lia].
  - induction s as [|c s IH]; [reflexivity|]. simpl. intros Hall.
    apply Forall_cons in Hall as [Hc Hall].
    rewrite safe_text_cons, escape_char_plain, IH by assumption. reflexivity.
Qed.

(** X14. The escaped text is at least as long as the stored text and at
    most six times as long; it is exactly as long only when nothing was
    replaced. *)
Theorem safe_text_grows_at_most_sixfold (s : string) :
  String.length s <= String.length (Html.safe_text s) <= 6 * String.length s
  /\ (String.length (Html.safe_text s) = String.length s -> Html.safe_text s = s).
Proof.
  split; [apply safe_text_length|].
  induction s as [|c s IH]; [reflexivity|].
  rewrite safe_text_cons, string_length_app. simpl String.length. intros Hlen.
  pose proof (safe_text_length s) as Hs.
  destruct (escape_char_length c) as [[Hc H1] | [_ H4]]; [|lia].
  rewrite escape_char_plain by exact Hc. rewrite IH by lia. reflexivity.
Qed.

(** ** Where uploads go *)

Lemma path_join_relative (a b : string) :
  String.prefix "/" b = false -> Py.path_join a b = dir_prefix a +:+ b.
Proof.
  intros Hrel. unfold Py.path_join, dir_prefix. rewrite Hrel.
  destruct (String.eqb a ""); [reflexivity|].
  destruct (String.eqb _ "/"); [reflexivity|].
  now rewrite string_app_assoc.
Qed.

Lemma last_char_app (x s : string) :
  s <> "" ->
  String.substring (String.length (x +:+ s) - 1) 1 (x +:+ s)
  = String.substring (String.length s - 1) 1 s.
Proof.
  intros Hs. induction x as [|c x IH]; [reflexivity|].
  rewrite string_app_cons. simpl String.length.
  replace (S (String.length (x +:+ s)) - 1) with (String.length (x +:+ s)) by lia.
  destruct (String.length (x +:+ s)) as [|n] eqn:Hlen.
  - rewrite string_length_app in Hlen. destruct s; [now destruct Hs | simpl in Hlen; lia].
  - simpl. rewrite <- IH. now replace (S n - 1) with n by lia.
Qed.

Lemma dir_prefix_uploads (x : string) :
  dir_prefix (x +:+ "uploads") = (x +:+ "uploads") +:+ "/".
Proof.
  unfold dir_prefix. rewrite last_char_app by discriminate.
  destruct (String.eqb_spec (x +:+ "uploads") "") as [Hempty|_]; [|reflexivity].
  now apply string_app_empty in Hempty.
Qed.

Lemma urlsafe_name_is_relative (tok ext : string) :
  urlsafe tok -> tok <> "" -> String.prefix "/" (tok +:+ ext) = false.
Proof.
  intros Hsafe Hne. destruct tok as [|c tok]; [now destruct Hne|].
  unfold urlsafe in Hsafe. simpl in Hsafe. apply Forall_cons in Hsafe as [Hc _].
  rewrite string_app_cons. clear Hne.
  destruct c as [[] [] [] [] [] [] [] []]; try discriminate Hc; reflexivity.
Qed.

(** X15. An upload never lands on the database file: with the settings
    the module computes from the process environment, the path [send_link]
    writes an upload to, for a token over the URL-safe alphabet, is never
    [DB_PATH], whatever the variables and the uploaded file's name are. *)
Theorem upload_never_overwrites_the_database
    (environ : gmap string string) (module_dir : string)
    (splitext_lower : string -> string) (float_add : Q -> Z -> option Q)
    (tok : string) (img : UploadFile) :
  urlsafe tok -> tok <> "" ->
  upload_path (Settings.config environ module_dir splitext_lower float_add) tok img
  <> Settings.DB_PATH environ module_dir.
Proof.
  intros Hsafe Hne. unfold upload_path, Settings.DB_PATH. simpl.
  unfold Settings.UPLOAD_DIR.
  rewrite (path_join_relative _ (tok +:+ _))
    by now apply urlsafe_name_is_relative.
  rewrite !(path_join_relative (Settings.DATA_DIR environ module_dir)) by reflexivity.
  rewrite dir_prefix_uploads, !string_app_assoc.
  intros Heq. apply String.app_inj in Heq. discriminate Heq.
Qed.

Lemma upload_never_overwrites_the_database_witness :
  urlsafe "Zm9vYmFy-_09" /\ "Zm9vYmFy-_09" <> ""
  /\ Settings.DB_PATH Sample2.environ "/srv/app" = "/home/site/data/app.db"
  /\ upload_path Sample2.cfg_no_acs "Zm9vYmFy-_09" Sample.photo
     = "/home/site/data/uploads/Zm9vYmFy-_09.jpg"
  /\ upload_path Sample2.cfg_no_acs "Zm9vYmFy-_09" Sample.photo
     <> Settings.DB_PATH Sample2.environ "/srv/app".
Proof.
  assert (Hsafe : urlsafe "Zm9vYmFy-_09").
  { unfold urlsafe. simpl. repeat (apply Forall_cons_2; [reflexivity|]).
    apply Forall_nil_2. }
  assert (Hne : "Zm9vYmFy-_09" <> "") by discriminate.
  split; [exact Hsafe|]. split; [exact Hne|].
  split; [reflexivity|]. split; [reflexivity|].
  exact (upload_never_overwrites_the_database Sample2.environ "/srv/app"
           (fun _ => ".jpg") Sample.small_sum "Zm9vYmFy-_09" Sample.photo Hsafe Hne).
Defined.

Lemma ext_of_shape (cfg : Config) (img : UploadFile) :
  ext_shaped cfg -> exists rest, ext_of cfg img = String "."%char rest.
Proof.
  intros Hshape. unfold ext_of, Py.str_or.
  destruct (Hshape (Py.opt_or (filename img) "")) as [-> | [rest ->]]; simpl; eauto.
Qed.

Lemma split_at_period (t1 t2 r1 r2 : string) :
  urlsafe t1 -> urlsafe t2 ->
  t1 +:+ String "."%char r1 = t2 +:+ String "."%char r2 -> t1 = t2 /\ r1 = r2.
Proof.
  unfold urlsafe. revert t2. induction t1 as [|c t1 IH]; intros [|d t2] H1 H2 Heq.
  - now injection Heq.
  - simpl in H2. apply Forall_cons in H2 as [Hd _].
    rewrite string_app_cons in Heq. injection Heq as <- _. discriminate Hd.
  - simpl in H1. apply Forall_cons in H1 as [Hc _].
    rewrite string_app_cons in Heq. injection Heq as -> _. discriminate Hc.
  - simpl in H1, H2. apply Forall_cons in H1 as [_ H1]. apply Forall_cons in H2 as [_ H2].
    rewrite !string_app_cons in Heq. injection Heq as -> Heq.
    destruct (IH t2 H1 H2 Heq) as [-> ->]. auto.
Qed.

(** X16. Records with different tokens never share an image file: for
    tokens over the URL-safe alphabet and extensions of the shape
    [os.path.splitext] returns, two uploads are written to the same path only
    when their tokens and their extensions are the same. *)
Theorem upload_paths_differ_with_the_token
    (cfg : Config) (t1 t2 : string) (img1 img2 : UploadFile) :
  ext_shaped cfg ->
  urlsafe t1 -> t1 <> "" -> urlsafe t2 -> t2 <> "" ->
  upload_path cfg t1 img1 = upload_path cfg t2 img2 ->
  t1 = t2 /\ ext_of cfg img1 = ext_of cfg img2.
Proof.
  intros Hshape Hs1 Hn1 Hs2 Hn2. unfold upload_path. fold (ext_of cfg img1).
  fold (ext_of cfg img2).
  rewrite !path_join_relative by now apply urlsafe_name_is_relative.
  intros Heq. apply String.app_inj in Heq.
  destruct (ext_of_shape cfg img1 Hshape) as [r1 Hr1].
  destruct (ext_of_shape cfg img2 Hshape) as [r2 Hr2].
  rewrite Hr1, Hr2 in *.
  destruct (split_at_period t1 t2 r1 r2 Hs1 Hs2 Heq) as [-> ->]. auto.
Qed.

Lemma upload_paths_differ_with_the_token_witness :
  ext_shaped Sample.cfg
  /\ urlsafe "tok-A" /\ "tok-A" <> "" /\ urlsafe "tok-B" /\ "tok-B" <> ""
  /\ upload_path Sample.cfg "tok-A" Sample.photo
     <> upload_path Sample.cfg "tok-B" Sample2.other_photo.
Proof.
  assert (Hshape : ext_shaped Sample.cfg) by (intros name; right; eexists; reflexivity).
  assert (Hsafe : forall t, t = "tok-A" \/ t = "tok-B" -> urlsafe t).
  { intros t [-> | ->]; unfold urlsafe; simpl;
      repeat (apply Forall_cons_2; [reflexivity|]); apply Forall_nil_2. }
  split; [exact Hshape|].
  split; [apply Hsafe; auto|]. split; [discriminate|].
  split; [apply Hsafe; auto|]. split; [discriminate|].
  intros Heq.
  destruct (upload_paths_differ_with_the_token Sample.cfg "tok-A" "tok-B" Sample.photo
              Sample2.other_photo Hshape (Hsafe _ (or_introl eq_refl))
              ltac:(discriminate) (Hsafe _ (or_intror eq_refl)) ltac:(discriminate) Heq)
    as [Habs _].
  discriminate Habs.
Defined.
